(** * python-icap: message models ([icap/models.py]) and hook table / server
      handle ([icap/server.py])

    A shallow embedding of the parts of the ICAP server's message model that
    its specification makes claims about, followed by the theorems.

    Conventions of the embedding.
    - A Python [str] is a Rocq [string], one [ascii] per code point; the
      embedding therefore covers text whose code points are below 256.
      [bytes] are [list Byte.byte]; [str.encode('utf8')] is written out.
    - A Python call either returns a value or raises: [outcome A].
    - [collections.OrderedDict] is an association list in insertion order.
    - A plain [dict] keyed by text whose order is never observed (the hook
      table, a module's globals) is a [gmap string _].
    - The methods of [HeadersDict] are given twice: in [HeadersDict] on text
      arguments, and in [HeadersDictAny] on arguments of any type, where
      [_checktype] decodes [bytes] and raises for other types before the
      text-level body runs.
    - [RequestLine] takes the functions of [urllib.parse] as a parameter;
      [Urllib] writes them out for URIs made of a plain path and query. *)

From Stdlib Require Import Ascii String ZArith Lia DecimalString.
From stdpp Require Import gmap strings list.


(** ** Python exceptions and results *)

(** The exception classes the modelled code can meet.  The last four are the
    ones that derive from [BaseException] without deriving from [Exception]. *)
Inductive exn : Type :=
  | KeyError
  | IndexError
  | TypeError
  | ValueError
  | AssertionError
  | NameError
  | UnicodeDecodeError
  | AttributeError
  | OtherException (cls : string)
  | KeyboardInterrupt
  | SystemExit
  | GeneratorExit
  | OtherBaseException (cls : string).

(** [isinstance(e, Exception)]: what an [except Exception:] clause catches. *)
Definition isinstance_Exception (e : exn) : bool :=
  match e with
  | KeyboardInterrupt | SystemExit | GeneratorExit | OtherBaseException _ => false
  | _ => true
  end.

Inductive outcome (A : Type) : Type :=
  | Return (a : A)
  | Raise (e : exn).
Arguments Return {A} a.
Arguments Raise {A} e.

#[global] Instance outcome_ret : MRet outcome := @Return.
#[global] Instance outcome_bind : MBind outcome := fun A B f m =>
  match m with
  | Return a => f a
  | Raise e => Raise e
  end.

(** A [for] loop whose body may raise, threading the loop state. *)
Fixpoint for_each {A S : Type} (body : S -> A -> outcome S) (xs : list A) (s : S)
  : outcome S :=
  match xs with
  | [] => Return s
  | x :: xs' => s' ← body s x; for_each body xs' s'
  end.

(** ** Text and bytes *)

Module Text.

(** [str.lower] on one code point below 256: A-Z, and the Latin-1 capitals
    U+00C0..U+00DE except the multiplication sign U+00D7. *)
Definition lower_char (c : ascii) : ascii :=
  let n := nat_of_ascii c in
  if (65 <=? n)%nat && (n <=? 90)%nat then ascii_of_nat (n + 32)
  else if (192 <=? n)%nat && (n <=? 222)%nat && negb (n =? 215)%nat
       then ascii_of_nat (n + 32)
       else c.

Fixpoint lower (s : string) : string :=
  match s with
  | EmptyString => EmptyString
  | String c s' => String (lower_char c) (lower s')
  end.

(** [s.startswith(p)] *)
Definition startswith (s p : string) : bool := String.prefix p s.

(** [needle in hay] on text: a substring test. *)
Fixpoint str_in (needle hay : string) : bool :=
  String.prefix needle hay ||
  match hay with
  | EmptyString => false
  | String _ hay' => str_in needle hay'
  end.

(** [c in s] for one character. *)
Fixpoint char_in (c : ascii) (s : string) : bool :=
  match s with
  | EmptyString => false
  | String c' s' => if Ascii.eqb c c' then true else char_in c s'
  end.

(** [sep.join(parts)] *)
Definition join (sep : string) (parts : list string) : string :=
  String.concat sep parts.

Definition CR : ascii := "013"%char.
Definition LF : ascii := "010"%char.
Definition SP : ascii := " "%char.
Definition CRLF : string := String CR (String LF EmptyString).

Definition byte_of_N (n : N) : Byte.byte := byte_of_ascii (ascii_of_N n).

(** UTF-8 of one code point below 256: one byte below 128, else the two
    bytes [110000xx 10xxxxxx]. *)
Definition encode_char (c : ascii) : list Byte.byte :=
  let n := N_of_ascii c in
  if (n <? 128)%N then [byte_of_ascii c]
  else [byte_of_N (192 + n / 64); byte_of_N (128 + n mod 64)].

(** [s.encode('utf8')] *)
Fixpoint encode_utf8 (s : string) : list Byte.byte :=
  match s with
  | EmptyString => []
  | String c s' => encode_char c ++ encode_utf8 s'
  end.

(** [b.decode('utf8')], defined where the result stays below code point
    256: [None] covers both malformed input and text outside the model. *)
Fixpoint decode_utf8 (b : list Byte.byte) : option string :=
  match b with
  | [] => Some EmptyString
  | x :: b' =>
      let n := Byte.to_N x in
      if (n <? 128)%N then String (ascii_of_byte x) <$> decode_utf8 b'
      else if (194 <=? n)%N && (n <=? 195)%N then
        match b' with
        | y :: b'' =>
            let m := Byte.to_N y in
            if (128 <=? m)%N && (m <? 192)%N
            then String (ascii_of_N ((n - 192) * 64 + (m - 128))) <$> decode_utf8 b''
            else None
        | [] => None
        end
      else None
  end.

(** [sep.join(parts)] on bytes. *)
Fixpoint bytes_join (sep : list Byte.byte) (parts : list (list Byte.byte)) : list Byte.byte :=
  match parts with
  | [] => []
  | [x] => x
  | x :: parts' => x ++ sep ++ bytes_join sep parts'
  end.

(** [str(n)] for an int: decimal digits, a leading [-] when negative. *)
Definition str_of_int (n : Z) : string := NilZero.string_of_int (Z.to_int n).

End Text.

(** ** [collections.OrderedDict] with text keys *)

Module OrderedDict.

(** Keys in insertion order, each with its value. *)
Abbreviation t V := (list (string * V)).

Section odict.
Context {V : Type}.
Implicit Type self : t V.

Fixpoint find (self : t V) (key : string) : option V :=
  match self with
  | [] => None
  | (k, v) :: rest => if decide (k = key) then Some v else find rest key
  end.

Definition __contains__ (self : t V) (key : string) : bool :=
  if find self key is Some _ then true else false.

Definition __getitem__ (self : t V) (key : string) : outcome V :=
  match find self key with
  | Some v => Return v
  | None => Raise KeyError
  end.

(** An existing key keeps its position; a new key goes last. *)
Fixpoint __setitem__ (self : t V) (key : string) (value : V) : t V :=
  match self with
  | [] => [(key, value)]
  | (k, v) :: rest =>
      if decide (k = key) then (k, value) :: rest
      else (k, v) :: __setitem__ rest key value
  end.

Definition remove (self : t V) (key : string) : t V :=
  filter (fun kv => kv.1 ≠ key) self.

Definition __delitem__ (self : t V) (key : string) : outcome (t V) :=
  if __contains__ self key then Return (remove self key)
  else Raise KeyError.

(** [OrderedDict.pop(self, key[, default])] as CPython 3.11 and later run
    it: the entry is popped from the underlying dict and its stored value
    returned, without going through [self[key]] or [del self[key]].
    (Interpreters up to 3.10 sent a subclass's [pop] through the subclass's
    own [in], [[]] and [del]; [HeadersDict.pop_spec] below is that route.) *)
Definition pop (self : t V) (key : string) (default : option V)
  : outcome (V * t V) :=
  match find self key with
  | Some v => Return (v, remove self key)
  | None =>
      match default with
      | Some d => Return (d, self)
      | None => Raise KeyError
      end
  end.

(** Iterating a dict yields its keys in insertion order. *)
Definition keys (self : t V) : list string := self.*1.

End odict.
End OrderedDict.

(** ** [class HeadersDict(OrderedDict)], called with text *)

(** The methods of the class on [str] arguments, for which [_checktype]
    returns its argument: [key] and [value] below are those texts.  The
    check itself, and the methods called with [bytes] or with an argument of
    another type, follow in [HeadersDictAny], whose methods run the check
    and then the bodies given here. *)
Module HeadersDict.

Import Text.

(** lower-cased name ↦ the [(name, value)] pairs stored under it. *)
Abbreviation t := (OrderedDict.t (list (string * string))).

Definition empty : t := [].

Definition __contains__ (self : t) (key : string) : bool :=
  OrderedDict.__contains__ self (lower key).

(** [lkey not in self] goes through the overridden [__contains__], which
    lower-cases once more. *)
Definition __setitem__ (self : t) (key value : string) : outcome t :=
  let lkey := lower key in
  if negb (__contains__ self lkey) then
    Return (OrderedDict.__setitem__ self lkey [(key, value)])
  else
    stored ← OrderedDict.__getitem__ self lkey;
    Return (OrderedDict.__setitem__ self lkey (stored ++ [(key, value)])).

Definition __init__ (items : list (string * string)) : outcome t :=
  for_each (fun self kv => __setitem__ self kv.1 kv.2) items empty.

Definition __delitem__ (self : t) (key : string) : outcome t :=
  OrderedDict.__delitem__ self (lower key).

Definition __getitem__ (self : t) (key : string) : outcome string :=
  stored ← OrderedDict.__getitem__ self (lower key);
  match stored with
  | [] => Raise IndexError
  | (_, value) :: _ => Return value
  end.

Definition get (self : t) (key default : string) : outcome string :=
  match __getitem__ self key with
  | Raise KeyError => Return default
  | r => r
  end.

Definition getlist (self : t) (key : string) : outcome (list string) :=
  match OrderedDict.__getitem__ self (lower key) with
  | Return stored => Return (stored.*2)
  | Raise KeyError => Return []
  | Raise e => Raise e
  end.

Definition pop (self : t) (key : string)
    (default : option (list (string * string)))
  : outcome (list (string * string) * t) :=
  OrderedDict.pop self (lower key) default.

Definition replace (self : t) (key value : string) : t :=
  OrderedDict.__setitem__ self (lower key) [(key, value)].

(** One header line without its terminator: [': '.join(v).encode('utf8')]. *)
Definition line (v : string * string) : list Byte.byte :=
  encode_utf8 (join ": " [v.1; v.2]).

Definition __bytes__ (self : t) : outcome (list Byte.byte) :=
  if bool_decide (self = []) then Return []
  else
    lines ← for_each
      (fun acc k =>
         stored ← OrderedDict.__getitem__ self k;
         Return (acc ++ (line <$> stored)))
      (OrderedDict.keys self) [];
    Return (bytes_join (encode_utf8 CRLF) lines ++ encode_utf8 CRLF).

(** *** Notions the statements about [HeadersDict] use *)

(** The pairs stored under a name, none when the name is absent. *)
Definition stored (self : t) (key : string) : list (string * string) :=
  default [] (OrderedDict.find self (lower key)).

(** The stored pairs in the dict's order: names by first insertion, and
    under each name its pairs by insertion. *)
Definition pairs (self : t) : list (string * string) := concat (self.*2).

(** One [Name: Value\r\n] line per pair. *)
Definition block (ps : list (string * string)) : list Byte.byte :=
  concat ((fun p => line p ++ encode_utf8 CRLF) <$> ps).

(** The elements of a list, each at its first occurrence. *)
Fixpoint nub (ks : list string) : list string :=
  match ks with
  | [] => []
  | k :: ks' => k :: filter (fun k' => k' ≠ k) (nub ks')
  end.

(** The items whose name lower-cases to [k], in their order. *)
Definition under (k : string) (items : list (string * string))
  : list (string * string) :=
  filter (fun p => lower p.1 = k) items.

(** [items] regrouped by name: names in order of first occurrence, the
    items of one name kept together in their order. *)
Definition by_name (items : list (string * string)) : list (string * string) :=
  concat ((fun k => under k items) <$> nub ((fun p => lower p.1) <$> items)).

(** What the methods of the class maintain: one entry per lower-cased
    name, holding at least one pair, each stored under its own name. *)
Definition wf (self : t) : Prop :=
  NoDup (OrderedDict.keys self) /\
  Forall (fun kv => kv.2 ≠ [] /\ Forall (fun p => lower p.1 = kv.1) kv.2) self.

(** [pop] in the spec's words: the first value stored under the name is
    returned and every pair stored under it is removed.  It is what
    [self[key]] followed by [del self[key]] do. *)
Definition pop_spec (self : t) (key : string) : outcome (string * t) :=
  value ← __getitem__ self key;
  self' ← __delitem__ self key;
  Return (value, self').

(** The loop of [__eq__] over the keys: the first key whose stored lists
    differ ends it with [False]. *)
Fixpoint eq_values (self other : t) (ks : list string) : outcome bool :=
  match ks with
  | [] => Return true
  | key :: ks' =>
      value ← OrderedDict.__getitem__ self key;
      ovalue ← OrderedDict.__getitem__ other key;
      if bool_decide (value = ovalue) then eq_values self other ks'
      else Return false
  end.

Definition __eq__ (self other : t) : outcome bool :=
  if bool_decide (OrderedDict.keys self = OrderedDict.keys other)
  then eq_values self other (OrderedDict.keys self)
  else Return false.

End HeadersDict.

(** ** [class HeadersDict], called with arguments of any type *)

Module HeadersDictAny.

(** What a caller can pass as a name or a value: a [str], a [bytes], or an
    object of another type, of which [int] and [None] stand here. *)
Inductive arg : Type :=
  | Str (s : string)
  | Bytes (b : list Byte.byte)
  | Int (n : Z)
  | NoneArg.

(** [bytes.lower()]: the ASCII capitals only. *)
Definition bytes_lower (b : list Byte.byte) : list Byte.byte :=
  (fun x => let n := Byte.to_N x in
            if (65 <=? n)%N && (n <=? 90)%N then Text.byte_of_N (n + 32) else x) <$> b.

(** [key.lower()]: [str] and [bytes] have the method, [int] and [None] have
    not. *)
Definition lower (key : arg) : outcome arg :=
  match key with
  | Str s => Return (Str (Text.lower s))
  | Bytes b => Return (Bytes (bytes_lower b))
  | Int _ | NoneArg => Raise AttributeError
  end.

(** [OrderedDict.__getitem__(self, key)] for a [key] of any type, on a
    dict whose keys are text, as [__setitem__] makes them: no [bytes], [int]
    or [None] equals a [str]. *)
Definition OrderedDict__getitem__ {V : Type} (self : OrderedDict.t V) (key : arg)
  : outcome V :=
  match key with
  | Str s => OrderedDict.__getitem__ self s
  | Bytes _ | Int _ | NoneArg => Raise KeyError
  end.

Section methods.

(** [b.decode('utf8')]: the decoded text, or [UnicodeDecodeError]. *)
Variable decode : list Byte.byte -> outcome string.

Definition _checktype (value : arg) : outcome string :=
  match value with
  | Bytes b => decode b
  | Str s => Return s
  | Int _ | NoneArg => Raise TypeError
  end.

Definition __contains__ (self : HeadersDict.t) (key : arg) : outcome bool :=
  key ← _checktype key;
  Return (HeadersDict.__contains__ self key).

Definition __setitem__ (self : HeadersDict.t) (key value : arg)
  : outcome HeadersDict.t :=
  key ← _checktype key;
  value ← _checktype value;
  HeadersDict.__setitem__ self key value.

Definition __init__ (items : list (arg * arg)) : outcome HeadersDict.t :=
  for_each (fun self kv => __setitem__ self kv.1 kv.2) items HeadersDict.empty.

Definition __getitem__ (self : HeadersDict.t) (key : arg) : outcome string :=
  key ← _checktype key;
  HeadersDict.__getitem__ self key.

(** [getlist] does not check its argument: it looks up [key.lower()] as it
    is, catching [KeyError] only. *)
Definition getlist (self : HeadersDict.t) (key : arg) : outcome (list string) :=
  lkey ← lower key;
  match OrderedDict__getitem__ self lkey with
  | Return stored => Return (stored.*2)
  | Raise KeyError => Return []
  | Raise e => Raise e
  end.

End methods.

(** [bytes.decode('utf8')] on the bytes the embedding covers: malformed
    ones, and those whose text stays below code point 256. *)
Definition decode_utf8 (b : list Byte.byte) : outcome string :=
  match Text.decode_utf8 b with
  | Some s => Return s
  | None => Raise UnicodeDecodeError
  end.

End HeadersDictAny.

(** ** [class ICAPRequest] *)

Module ICAPRequest.

Import Text.

Record t : Type := mk { headers : HeadersDict.t }.

(** [ICAPMessage.__init__]: [self.headers = headers or HeadersDict()] *)
Definition __init__ (headers : option HeadersDict.t) : t :=
  match headers with
  | Some h => if bool_decide (h = []) then mk HeadersDict.empty else mk h
  | None => mk HeadersDict.empty
  end.

Definition allow_204 (self : t) : outcome bool :=
  allow ← HeadersDict.get (headers self) "allow" "";
  Return (str_in "204" allow || HeadersDict.__contains__ (headers self) "preview").

(** *** The detection in the spec's words: the token [204] *)

(** [s.split(sep)] for a one-character separator. *)
Fixpoint split_on (sep : ascii) (s : string) : list string :=
  match s with
  | EmptyString => [EmptyString]
  | String c s' =>
      if Ascii.eqb c sep then EmptyString :: split_on sep s'
      else match split_on sep s' with
           | [] => [String c EmptyString]
           | x :: xs => String c x :: xs
           end
  end.

Fixpoint lstrip (s : string) : string :=
  match s with
  | EmptyString => EmptyString
  | String c s' => if Ascii.is_space c then lstrip s' else s
  end.

Definition strip (s : string) : string :=
  String.rev (lstrip (String.rev (lstrip s))).

(** [tok] is one of the comma-separated tokens of [v]. *)
Definition has_token (tok v : string) : bool :=
  existsb (fun t => String.eqb (strip t) tok) (split_on "," v).

Definition allow_204_spec (self : t) : outcome bool :=
  allow ← HeadersDict.getlist (headers self) "allow";
  Return (existsb (has_token "204") allow
          || HeadersDict.__contains__ (headers self) "preview").

End ICAPRequest.

(** ** [class StatusLine] *)

Module StatusLine.

Import Text.

Record t : Type := mk { version : string; code : Z; reason : string }.

(** What [int(code)] is applied to: callers pass an int or text. *)
Inductive code_arg : Type :=
  | CodeInt (n : Z)
  | CodeStr (s : string).

(** What [StatusLine] takes from outside [models.py]: the two reason tables
    of [icap/errors.py], which is not among the sources, and the built-in
    [int] on text ([None] where it raises [ValueError]). *)
Record imports : Type := {
  icap_response_codes : gmap Z string;
  http_response_codes : gmap Z string;
  int_of_str : string -> option Z;
}.

Definition int (I : imports) (c : code_arg) : outcome Z :=
  match c with
  | CodeInt n => Return n
  | CodeStr s => if int_of_str I s is Some n then Return n else Raise ValueError
  end.

(** [table[code]] on a plain dict. *)
Definition table_getitem (table : gmap Z string) (code : Z) : outcome string :=
  if table !! code is Some r then Return r else Raise KeyError.

(** [__new__(self, version, code, *args)] *)
Definition __new__ (I : imports) (version : string) (code : code_arg)
    (args : list string) : outcome t :=
  code ← int I code;
  reason ←
    match args with
    | [reason] => Return reason
    | _ :: _ :: _ => Raise ValueError
    | [] =>
        if startswith version "HTTP"
        then table_getitem (http_response_codes I) code
        else table_getitem (icap_response_codes I) code
    end;
  Return (mk version code reason).

(** [' '.join(map(str, self)).encode('utf8')] *)
Definition __bytes__ (self : t) : list Byte.byte :=
  encode_utf8 (join " " [version self; str_of_int (code self); reason self]).

End StatusLine.

(** ** [class RequestLine] *)

(** [urllib.parse.ParseResult], with the type of the [query] field open:
    text as [urlparse] returns it, a dict once [RequestLine] has parsed it. *)
Record ParseResult (Q : Type) : Type := mkParseResult {
  scheme : string;
  netloc : string;
  path : string;
  params : string;
  query : Q;
  fragment : string;
}.
Arguments mkParseResult {Q}.
Arguments scheme {Q}.
Arguments netloc {Q}.
Arguments path {Q}.
Arguments params {Q}.
Arguments query {Q}.
Arguments fragment {Q}.

(** [uri._replace(query=q)] *)
Definition _replace_query {Q Q' : Type} (uri : ParseResult Q) (q : Q') : ParseResult Q' :=
  mkParseResult (scheme uri) (netloc uri) (path uri) (params uri) q (fragment uri).

(** The dict [parse_qs] returns, in insertion order: key ↦ list of values. *)
Definition querydict : Type := list (string * list string).

(** The four functions [RequestLine] calls in [urllib.parse], a library
    outside the repository; [urlparse] may raise [ValueError], and
    [urlencode] stands for [urlencode(_, doseq=True)]. *)
Record urllib_parse : Type := {
  urlparse : string -> outcome (ParseResult string);
  parse_qs : string -> querydict;
  urlencode : querydict -> string;
  geturl : ParseResult string -> string;
}.

(** ** The part of [urllib.parse] that plain URIs use *)

(** [urllib.parse] is a library outside the repository.  This module writes
    out what its four functions do on plain URIs: texts [path] or
    [path?query] in which the path is made of unreserved characters and [/]
    and does not start with [//], and the query is made of pieces joined by
    [&], each piece made of unreserved characters with at most one [=].
    Such a URI has no scheme, host, parameters or fragment, and nothing in
    it is percent-encoded or decoded.  [urlparse] declines every other
    text, so the other three functions are only ever used on what plain
    URIs give. *)
Module Urllib.

Import Text.

(** Letters, digits, [_], [.] and [-]: the characters that [quote_plus]
    never escapes and that [unquote] leaves as they are. *)
Definition unreserved (c : ascii) : bool :=
  let n := nat_of_ascii c in
  ((65 <=? n) && (n <=? 90) || (97 <=? n) && (n <=? 122)
   || (48 <=? n) && (n <=? 57) || (n =? 95) || (n =? 46) || (n =? 45))%nat.

(** Every character of [s] satisfies [P]. *)
Fixpoint all (P : ascii -> bool) (s : string) : bool :=
  match s with
  | EmptyString => true
  | String c s' => P c && all P s'
  end.

(** [s.partition(c)] when [c] occurs in [s]: the text before its first
    occurrence and the text after it. *)
Fixpoint partition (c : ascii) (s : string) : option (string * string) :=
  match s with
  | EmptyString => None
  | String x s' =>
      if Ascii.eqb x c then Some (EmptyString, s')
      else (fun p : string * string => (String x p.1, p.2)) <$> partition c s'
  end.

(** [s.split(sep)] for a one-character separator. *)
Fixpoint split (sep : ascii) (s : string) : list string :=
  match s with
  | EmptyString => [EmptyString]
  | String c s' =>
      if Ascii.eqb c sep then EmptyString :: split sep s'
      else match split sep s' with
           | [] => [String c EmptyString]
           | x :: xs => String c x :: xs
           end
  end.

(** One piece of a query in [parse_qsl]: skipped when it has no [=] or
    nothing after its first [=] (blank values are not kept). *)
Definition name_value (piece : string) : option (string * string) :=
  match partition "=" piece with
  | Some (name, EmptyString) => None
  | Some (name, value) => Some (name, value)
  | None => None
  end.

(** [parse_qsl(qs)]: the pieces between [&], in their order. *)
Definition parse_qsl (qs : string) : list (string * string) :=
  omap name_value (split "&" qs).

(** One step of [parse_qs]: a name met again has the value appended to its
    list, a new name goes last. *)
Definition add (d : querydict) (nv : string * string) : querydict :=
  OrderedDict.__setitem__ d nv.1 (default [] (OrderedDict.find d nv.1) ++ [nv.2]).

Definition parse_qs (qs : string) : querydict := foldl add [] (parse_qsl qs).

(** The name-value pairs of a dict: its names in order, and for each name
    its values in order. *)
Definition items (query : querydict) : list (string * string) :=
  kv ← query; (fun v => (kv.1, v)) <$> kv.2.

(** One [name=value] of [urlencode]; [quote_plus] changes nothing in
    unreserved text. *)
Definition line (nv : string * string) : string := nv.1 +:+ "=" +:+ nv.2.

(** [urlencode(query, doseq=True)]: one [name=value] per value, joined by
    [&]. *)
Definition urlencode (query : querydict) : string :=
  join "&" (line <$> items query).

Definition plain (s : string) : bool := all unreserved s.

Definition plain_path (s : string) : bool :=
  all (fun c => unreserved c || Ascii.eqb c "/") s && negb (startswith s "//").

Definition plain_piece (piece : string) : bool :=
  match partition "=" piece with
  | Some (name, value) => plain name && plain value
  | None => plain piece
  end.

Definition plain_query (qs : string) : bool :=
  forallb plain_piece (split "&" qs).

(** [urlparse(url)] on a plain URI: the text before the first [?] is the
    path, the text after it the query. *)
Definition urlparse (url : string) : outcome (ParseResult string) :=
  match partition "?" url with
  | Some (p, q) =>
      if plain_path p && plain_query q
      then Return (mkParseResult "" "" p "" q "")
      else Raise ValueError
  | None =>
      if plain_path url
      then Return (mkParseResult "" "" url "" "" "")
      else Raise ValueError
  end.

(** [geturl()] of a result without scheme, host, parameters and fragment:
    the path, followed by [?] and the query when the query is not empty. *)
Definition geturl (p : ParseResult string) : string :=
  match query p with
  | EmptyString => path p
  | q => path p +:+ "?" +:+ q
  end.

(** *** Notions the statements about plain URIs use *)



End Urllib.

(** The four functions together, as [RequestLine] takes them. *)
Definition plain_urllib : urllib_parse := {|
  urlparse := Urllib.urlparse;
  parse_qs := Urllib.parse_qs;
  urlencode := Urllib.urlencode;
  geturl := Urllib.geturl;
|}.

Module RequestLine.

Import Text.

Record t : Type := mk {
  method : string;
  uri : ParseResult querydict;
  version : string;
}.

Definition __new__ (U : urllib_parse) (method uri version : string) : outcome t :=
  uri ← urlparse U uri;
  let uri := _replace_query uri (parse_qs U (query uri)) in
  Return (mk method uri version).

(** The text of the URI as [__bytes__] rebuilds it. *)
Definition uri_text (U : urllib_parse) (self : t) : string :=
  geturl U (_replace_query (uri self) (urlencode U (query (uri self)))).

Definition __bytes__ (U : urllib_parse) (self : t) : list Byte.byte :=
  encode_utf8 (join " " [method self; uri_text U self; version self]).

(** [==] on dicts: the same keys with equal values, in any order. *)
Definition dict_eq (d1 d2 : querydict) : Prop :=
  forall k : string, OrderedDict.find d1 k = OrderedDict.find d2 k.

(** [==] on the parsed URIs: field by field. *)
Definition uri_eq (u1 u2 : ParseResult querydict) : Prop :=
  scheme u1 = scheme u2 /\ netloc u1 = netloc u2 /\ path u1 = path u2 /\
  params u1 = params u2 /\ dict_eq (query u1) (query u2) /\
  fragment u1 = fragment u2.

(** [==] on request lines: tuple equality. *)
Definition __eq__ (a b : t) : Prop :=
  method a = method b /\ uri_eq (uri a) (uri b) /\ version a = version b.

(** [s.partition(' ')] when [s] holds a space: the text before the first
    space and the text after it. *)
Fixpoint partition_space (s : string) : option (string * string) :=
  match s with
  | EmptyString => None
  | String c s' =>
      if Ascii.eqb c SP then Some (EmptyString, s')
      else (fun p : string * string => (String c p.1, p.2)) <$> partition_space s'
  end.

(** [s.split(' ', 2)] *)
Definition split_2 (s : string) : list string :=
  match partition_space s with
  | None => [s]
  | Some (a, rest) =>
      match partition_space rest with
      | None => [a; rest]
      | Some (b, c) => [a; b; c]
      end
  end.

(** Modelled from the spec: the ICAP parser ([icap/parsing.py]) is not among
    the sources.  The spec has it parse the request line into method, URI
    and version; here the line is decoded, split at its first two spaces
    and the three fields are handed to the constructor. *)
Definition parse (U : urllib_parse) (line : list Byte.byte) : outcome t :=
  match decode_utf8 line with
  | None => Raise UnicodeDecodeError
  | Some s =>
      match split_2 s with
      | [method; uri; version] => __new__ U method uri version
      | _ => Raise TypeError
      end
  end.

End RequestLine.

(** ** [class Hooks(dict)] *)

(** The Python values hooks receive and return. *)
Inductive pyval : Type :=
  | PyNone
  | PyBool (b : bool)
  | PyInt (n : Z)
  | PyStr (s : string)
  | PyDict (d : list (string * string)).

(** A callable: positional arguments and keyword arguments to a result. *)
Definition callable : Type := list pyval -> list (string * pyval) -> outcome pyval.

Module Hooks.

(** name ↦ [(func, default)] *)
Abbreviation t := (gmap string (callable * pyval)).

(** [lambda *args: None]: keyword arguments are a [TypeError]. *)
Definition lambda_None : callable := fun args kwargs =>
  match kwargs with
  | [] => Return PyNone
  | _ :: _ => Raise TypeError
  end.

Definition safe_callable (func : callable) (default : pyval) : callable :=
  fun args kwargs =>
    match func args kwargs with
    | Return v => Return v
    | Raise e => if isinstance_Exception e then Return default else Raise e
    end.

Definition __getitem__ (self : t) (name : string) : callable :=
  let '(func, default) :=
    match self !! name with
    | Some entry => entry
    | None => (lambda_None, PyNone)
    end in
  safe_callable func default.

(** [hooks(name, default, override)] returns the decorator [wrapped]; the
    fallback is chosen when the decorator is made, the table is written
    when the decorator is applied to [func]. *)
Definition __call__ (self : t) (name : string) (default : pyval) (override : bool)
  : callable -> t -> t :=
  let default :=
    match self !! name with
    | Some (_oldfunc, olddefault) => if negb override then olddefault else default
    | None => default
    end in
  fun func self' => <[name := (func, default)]> self'.

(** One registration, [@hooks(name, default, override)] over [def func]. *)
Definition register (name : string) (default : pyval) (override : bool)
    (func : callable) (self : t) : t :=
  __call__ self name default override func self.

(** The fallback currently stored under [name]. *)
Definition fallback (self : t) (name : string) : option pyval :=
  snd <$> self !! name.



End Hooks.

(** ** Module [icap.server]: the server handle *)

Module server.

(** What a module-level or local name can hold here: [None], a reference
    to an asyncio server object, or the [asyncio] module itself. *)
Inductive value : Type :=
  | VNone
  | VServer (id : nat)
  | VAsyncio.

(** The module's globals and the server objects, each open or closed. *)
Record state : Type := mkState {
  globals : gmap string value;
  closed : gmap nat bool;
}.

(** A running function's view of names: the module's globals, its own
    locals, and the names its [global] statements declare. *)
Record frame : Type := mkFrame {
  f_globals : gmap string value;
  f_locals : gmap string value;
  f_declared : list string;
}.

(** [name = v] inside a function: a global only if declared so. *)
Definition assign (name : string) (v : value) (fr : frame) : frame :=
  if bool_decide (name ∈ f_declared fr)
  then mkFrame (<[name := v]> (f_globals fr)) (f_locals fr) (f_declared fr)
  else mkFrame (f_globals fr) (<[name := v]> (f_locals fr)) (f_declared fr).

(** Reading a name that the function never assigns: a global. *)
Definition load_global (name : string) (fr : frame) : outcome value :=
  if f_globals fr !! name is Some v then Return v else Raise NameError.

(** [srv.close()] *)
Definition close (v : value) (objs : gmap nat bool) : outcome (gmap nat bool) :=
  match v with
  | VServer id => Return (<[id := true]> objs)
  | VNone | VAsyncio => Raise AttributeError
  end.

(** The module right after import: [_server = None]. *)
Definition initial : state := mkState {[ "_server" := VNone ]} ∅.

(** [run], up to the point where the event loop takes over
    ([loop.run_forever()] does not return).  [prelude] stands for what comes
    first and lies outside this module: the import of the protocol factory,
    [sort_handlers()] and the call of the factory class, any of which may
    raise.  Then [asyncio.get_event_loop()] reads the name [asyncio], which
    [server.py] never imports, as a global; only when that name is bound to
    the module does [create] (the event loop creating the listening server,
    which may raise as well) run and is its server object, with
    [global _server], bound to the module-level name. *)
Definition run (prelude : outcome ()) (create : outcome nat) (st : state)
  : outcome state :=
  let fr := mkFrame (globals st) ∅ ["_server"] in
  _ ← prelude;
  asyncio ← load_global "asyncio" fr;
  match asyncio with
  | VAsyncio =>
      id ← create;
      let fr := assign "_server" (VServer id) fr in
      Return (mkState (f_globals fr) (<[id := false]> (closed st)))
  | VNone | VServer _ => Raise AttributeError
  end.

(** [stop]: declares [global server], reads [_server], closes it, and
    assigns [None] to the name [_serevr]. *)
Definition stop (st : state) : outcome state :=
  let fr := mkFrame (globals st) ∅ ["server"] in
  srv ← load_global "_server" fr;
  match srv with
  | VNone => Raise AssertionError
  | _ =>
      objs ← close srv (closed st);
      let fr := assign "_serevr" VNone fr in
      Return (mkState (f_globals fr) objs)
  end.

(** The server handle as the rest of the module sees it. *)
Definition handle (st : state) : option value := globals st !! "_server".

(** [stop()] called [n] times in a row. *)
Fixpoint stop_times (n : nat) (st : state) : outcome state :=
  match n with
  | O => Return st
  | S n' => st' ← stop st; stop_times n' st'
  end.

End server.

(** ** Concrete inputs used by the examples below *)

Module Examples.

Import Text.

(** A hook that ends the process: [sys.exit()] raises [SystemExit]. *)
Definition exiting_hook : callable := fun _ _ => Raise SystemExit.

(** A hook that fails with an ordinary error. *)
Definition failing_hook : callable := fun _ _ => Raise ValueError.

(** A hook that returns its tag. *)
Definition tag_hook (tag : string) : callable := fun _ _ => Return (PyStr tag).

Definition digit_of (c : ascii) : option Z :=
  let n := Z.of_nat (nat_of_ascii c) in
  if ((48 <=? n) && (n <=? 57))%Z then Some (n - 48)%Z else None.

Fixpoint digits_acc (acc : Z) (s : string) : option Z :=
  match s with
  | EmptyString => Some acc
  | String c s' => d ← digit_of c; digits_acc (10 * acc + d) s'
  end.

(** [int] on a non-empty run of ASCII digits, where it agrees with
    Python's; Python's [int] accepts more (blanks, a sign). *)
Definition int_of_digits (s : string) : option Z :=
  match s with
  | EmptyString => None
  | _ => digits_acc 0 s
  end.

(** The entries of the reason tables that [models.py] itself documents:
    [StatusLine('HTTP/1.1', '204')] has reason ['No Content'], and the
    default status lines are [200 OK]. *)
Definition documented_imports : StatusLine.imports := {|
  StatusLine.icap_response_codes := {[ 200%Z := "OK" ]};
  StatusLine.http_response_codes := {[ 200%Z := "OK"; 204%Z := "No Content" ]};
  StatusLine.int_of_str := int_of_digits;
|}.

(** [allow_204] of a request whose headers are built from [items]. *)
Definition allow_204_of (items : list (string * string)) : outcome bool :=
  h ← HeadersDict.__init__ items;
  ICAPRequest.allow_204 (ICAPRequest.__init__ (Some h)).

Definition allow_204_spec_of (items : list (string * string)) : outcome bool :=
  h ← HeadersDict.__init__ items;
  ICAPRequest.allow_204_spec (ICAPRequest.__init__ (Some h)).

(** Three headers, the first name coming back after another one. *)
Definition interleaved : list (string * string) :=
  [("A", "1"); ("B", "2"); ("A", "3")].

End Examples.

(** ** [class ICAPMessage] and its two subclasses *)

Module ICAPMessage.

Import Text.

(** An [ICAPRequest] or an [ICAPResponse]; the [http] slot plays no part in
    the accessors below and is left out. *)
Inductive t : Type :=
  | Request (request_line : RequestLine.t) (headers : HeadersDict.t)
  | Response (status_line : StatusLine.t) (headers : HeadersDict.t).

Definition headers (self : t) : HeadersDict.t :=
  match self with
  | Request _ h => h
  | Response _ h => h
  end.

(** [isinstance(self, ICAPRequest)] *)
Definition is_request (self : t) : bool :=
  match self with
  | Request _ _ => true
  | Response _ _ => false
  end.

(** [isinstance(self, ICAPResponse)] *)
Definition is_response (self : t) : bool :=
  match self with
  | Request _ _ => false
  | Response _ _ => true
  end.

(** [self.request_line.method == name]; only [ICAPRequest] has these
    properties. *)
Definition method_is (name : string) (self : t) : outcome bool :=
  match self with
  | Request rl _ => Return (bool_decide (RequestLine.method rl = name))
  | Response _ _ => Raise AttributeError
  end.

Definition is_reqmod : t -> outcome bool := method_is "REQMOD".
Definition is_respmod : t -> outcome bool := method_is "RESPMOD".
Definition is_options : t -> outcome bool := method_is "OPTIONS".

(** [has_body]: the three-way [and] stops at its first false operand. *)
Definition has_body (self : t) : outcome bool :=
  no_body ←
    (if is_request self then
       options ← is_options self;
       Return (options && negb (HeadersDict.__contains__ (headers self) "encapsulated"))
     else Return false);
  if (no_body : bool) then Return false
  else
    encapsulated ← HeadersDict.__getitem__ (headers self) "encapsulated";
    Return (negb (str_in "null-body" encapsulated)).

End ICAPMessage.

(** ** [class ICAPResponse] *)

Module ICAPResponse.

Import Text.

Record t : Type := mk { status_line : StatusLine.t; headers : HeadersDict.t }.

(** [__init__(self, status_line=None, headers=None)]: a status line, a
    tuple of three fields, is always truthy; an empty [HeadersDict] is falsy
    and gives way to a fresh one.  The default [StatusLine('ICAP/1.0', 200,
    'OK')] names its reason, so no table is consulted. *)
Definition __init__ (status_line : option StatusLine.t)
    (headers : option HeadersDict.t) : t :=
  mk (match status_line with
      | Some s => s
      | None => StatusLine.mk "ICAP/1.0" 200 "OK"
      end)
     (match headers with
      | Some h => if bool_decide (h = []) then HeadersDict.empty else h
      | None => HeadersDict.empty
      end).

Definition __bytes__ (self : t) : outcome (list Byte.byte) :=
  header_block ← HeadersDict.__bytes__ (headers self);
  Return (bytes_join (encode_utf8 CRLF)
            [StatusLine.__bytes__ (status_line self); header_block]).

(** What [from_error] is given: a status code, or an error object carrying
    one in [status_code]. *)
Inductive error_arg : Type :=
  | ErrorCode (n : Z)
  | ErrorObject (status_code : Z).

Definition from_error (I : StatusLine.imports) (error : error_arg) : outcome t :=
  let status_code :=
    match error with
    | ErrorCode n => n
    | ErrorObject n => n
    end in
  message ← StatusLine.table_getitem (StatusLine.icap_response_codes I) status_code;
  status ← StatusLine.__new__ I "ICAP/1.0" (StatusLine.CodeInt status_code) [message];
  Return (__init__ (Some status) None).

End ICAPResponse.

(** * Theorems *)

(** ** Text *)

Section text_facts.
Import Text.

Lemma lower_char_idemp (c : ascii) : lower_char (lower_char c) = lower_char c.
Proof. destruct c as [[] [] [] [] [] [] [] []]; reflexivity. Qed.

Lemma lower_idemp (s : string) : lower (lower s) = lower s.
Proof.
  induction s as [|c s IH]; simpl; [done|].
  by rewrite lower_char_idemp, IH.
Qed.

Lemma encode_utf8_app (a b : string) :
  encode_utf8 (a +:+ b) = encode_utf8 a ++ encode_utf8 b.
Proof.
  induction a as [|c a IH]; simpl; [done|].
  by rewrite IH, (assoc_L (++)).
Qed.

Lemma decode_encode_char (c : ascii) (b : list Byte.byte) :
  decode_utf8 (encode_char c ++ b) = String c <$> decode_utf8 b.
Proof. destruct c as [[] [] [] [] [] [] [] []]; reflexivity. Qed.

(** Decoding undoes encoding. *)
Lemma decode_encode_utf8 (s : string) : decode_utf8 (encode_utf8 s) = Some s.
Proof.
  induction s as [|c s IH]; [done|].
  cbn [encode_utf8]. by rewrite decode_encode_char, IH.
Qed.

End text_facts.

(** ** The hook table *)

Section hooks_facts.
Implicit Types (self : Hooks.t) (name : string) (func : callable)
               (default : pyval).

Lemma getitem_registered self name func default :
  self !! name = Some (func, default) ->
  Hooks.__getitem__ self name = Hooks.safe_callable func default.
Proof. intros H. unfold Hooks.__getitem__. by rewrite H. Qed.




End hooks_facts.

(** C2, as stated, fails: a hook registered under [is_tag] that raises
    [SystemExit] is looked up and called, and the exception comes out of the
    call instead of the registered fallback: [except Exception] does not
    catch it. *)
Lemma C2_SystemExit_escapes_the_wrapper :
  Hooks.__getitem__
    (Hooks.register "is_tag" (PyStr "fallback") false Examples.exiting_hook ∅)
    "is_tag" [] []
  = Raise SystemExit.
Proof. unfold Hooks.register, Hooks.__call__, Hooks.__getitem__. by rewrite lookup_insert_eq. Qed.

(** C2, amended: for every hook registered under a name, every argument list
    and every keyword-argument list, calling the looked-up hook returns what
    the hook returns; if the hook raises an exception derived from
    [Exception], the call returns the fallback registered for that name; the
    only exceptions that leave the call are those the hook raised that derive
    from [BaseException] alone ([SystemExit], [KeyboardInterrupt],
    [GeneratorExit]). *)
Theorem C2_hook_call_is_wrapped (self : Hooks.t) (name : string)
    (func : callable) (default : pyval)
    (args : list pyval) (kwargs : list (string * pyval)) :
  self !! name = Some (func, default) ->
  (forall v, func args kwargs = Return v ->
     Hooks.__getitem__ self name args kwargs = Return v) /\
  (forall e, func args kwargs = Raise e -> isinstance_Exception e = true ->
     Hooks.__getitem__ self name args kwargs = Return default) /\
  (forall e, Hooks.__getitem__ self name args kwargs = Raise e ->
     func args kwargs = Raise e /\ isinstance_Exception e = false).
Proof.
  intros Hreg. rewrite (getitem_registered _ _ _ _ Hreg).
  unfold Hooks.safe_callable. repeat split.
  - by intros v ->.
  - by intros e -> ->.
  - destruct (func args kwargs) as [v|e']; [done|].
    destruct (isinstance_Exception e') eqn:He'; [done|]. congruence.
  - destruct (func args kwargs) as [v|e']; [done|].
    destruct (isinstance_Exception e') eqn:He'; [done|]. congruence.
Qed.

Lemma C2_hook_call_is_wrapped_witness :
  Hooks.__getitem__
    (Hooks.register "is_tag" (PyStr "fallback") false Examples.failing_hook ∅)
    "is_tag" [PyNone] []
  = Return (PyStr "fallback").
Proof.
  eapply (C2_hook_call_is_wrapped _ "is_tag" Examples.failing_hook (PyStr "fallback")).
  - unfold Hooks.register, Hooks.__call__. by rewrite lookup_insert_eq.
  - reflexivity.
  - reflexivity.
Defined.

(** C10: for every name that is not registered in the hook table, looking
    the name up yields a callable that returns [None] for every list of
    positional arguments and every list of keyword arguments (the default
    [lambda *args: None] rejects keyword arguments with a [TypeError], which
    the wrapper turns into the default [None]). *)
Theorem C10_unregistered_hook_returns_None (self : Hooks.t) (name : string)
    (args : list pyval) (kwargs : list (string * pyval)) :
  self !! name = None ->
  Hooks.__getitem__ self name args kwargs = Return PyNone.
Proof.
  intros Hnone. unfold Hooks.__getitem__. rewrite Hnone.
  unfold Hooks.safe_callable, Hooks.lambda_None. by destruct kwargs.
Qed.

Lemma C10_unregistered_hook_returns_None_witness :
  Hooks.__getitem__
    (Hooks.register "is_tag" (PyStr "tag") false (Examples.tag_hook "tag") ∅)
    "before_handling" [PyNone] [("request", PyNone)]
  = Return PyNone.
Proof.
  apply C10_unregistered_hook_returns_None.
  unfold Hooks.register, Hooks.__call__. by rewrite lookup_insert_ne.
Defined.




(** ** [StatusLine] *)

(** C8: for every version text and every code that [int] accepts and that
    the reason table selected by the version holds (the HTTP table when the
    version starts with [HTTP], the ICAP table otherwise), constructing a
    [StatusLine] from the version and the code alone gives the status line
    with that version, the code as an integer and the table's reason. *)
Theorem C8_default_reason_from_table (I : StatusLine.imports)
    (version : string) (code : StatusLine.code_arg) (n : Z) (reason : string) :
  StatusLine.int I code = Return n ->
  (if Text.startswith version "HTTP"
   then StatusLine.http_response_codes I
   else StatusLine.icap_response_codes I) !! n = Some reason ->
  StatusLine.__new__ I version code [] = Return (StatusLine.mk version n reason).
Proof.
  intros Hint Htable. unfold StatusLine.__new__. rewrite Hint. simpl.
  unfold StatusLine.table_getitem.
  destruct (Text.startswith version "HTTP"); by rewrite Htable.
Qed.

Lemma C8_default_reason_from_table_witness :
  StatusLine.__new__ Examples.documented_imports "HTTP/1.1" (StatusLine.CodeStr "204") []
  = Return (StatusLine.mk "HTTP/1.1" 204 "No Content").
Proof.
  apply C8_default_reason_from_table.
  - reflexivity.
  - reflexivity.
Defined.

(** An explicit reason is taken as given, whatever the tables hold. *)
Lemma StatusLine_explicit_reason (I : StatusLine.imports)
    (version : string) (n : Z) (reason : string) :
  StatusLine.__new__ I version (StatusLine.CodeInt n) [reason]
  = Return (StatusLine.mk version n reason).
Proof. reflexivity. Qed.

(** ** The server handle *)

Section server_facts.
Import server.

(** [stop] succeeds on a running server, closes the server object and
    leaves every module-level name as it was. *)
Lemma stop_leaves_globals (st : state) (id : nat) :
  handle st = Some (VServer id) ->
  stop st = Return (mkState (globals st) (<[id := true]> (closed st))).
Proof.
  unfold handle, stop, load_global. simpl. by intros ->.
Qed.

(** [run] reads the global [asyncio] before it binds anything: in a module
    where that name is unbound, as in [server.py] as it stands, it raises
    and never returns. *)
Lemma run_without_asyncio (prelude : outcome ()) (create : outcome nat)
    (st : state) :
  globals st !! "asyncio" = None ->
  run prelude create st =
    match prelude with
    | Return _ => Raise NameError
    | Raise e => Raise e
    end.
Proof.
  intros Hnone. unfold run, load_global. simpl. rewrite Hnone.
  by destruct prelude.
Qed.

(** Once [asyncio] is bound in the module, [run] binds the handle. *)
Lemma run_binds_handle (st : state) (id : nat) :
  globals st !! "asyncio" = Some VAsyncio ->
  exists st', run (Return ()) (Return id) st = Return st' /\
              handle st' = Some (VServer id).
Proof.
  intros Hmod. unfold run, load_global. simpl. rewrite Hmod. simpl.
  eexists. split; [done|]. apply lookup_insert_eq.
Qed.

End server_facts.

(** C9 (code defect): in every module state whose handle [_server] refers
    to a server, [stop] returns, that server is closed, and the module-level
    handle still refers to it: the [None] went to a local name, [_serevr]. *)
Theorem C9_stop_keeps_the_handle (st : server.state) (id : nat) :
  server.handle st = Some (server.VServer id) ->
  exists st',
    server.stop st = Return st' /\
    server.handle st' = Some (server.VServer id) /\
    server.handle st' ≠ Some server.VNone /\
    server.closed st' !! id = Some true.
Proof.
  intros Hst. rewrite (stop_leaves_globals st id Hst). eexists.
  split; [done|]. unfold server.handle in *. simpl. rewrite Hst.
  split; [done|]. split; [done|]. apply lookup_insert_eq.
Qed.

Lemma C9_stop_keeps_the_handle_witness :
  exists st',
    server.stop (server.mkState {[ "_server" := server.VServer 0 ]} {[ 0 := false ]})
      = Return st' /\
    server.handle st' = Some (server.VServer 0) /\
    server.handle st' ≠ Some server.VNone /\
    server.closed st' !! 0 = Some true.
Proof.
  apply (C9_stop_keeps_the_handle
           (server.mkState {[ "_server" := server.VServer 0 ]} {[ 0 := false ]}) 0).
  reflexivity.
Defined.

(** ** [ICAPRequest.allow_204] *)

(** C1 (code defect): [allow_204] tests whether the text [204] occurs
    anywhere in the first [Allow] value.  A request whose only header is
    [Allow: 2040] is detected as permitting 204, although [204] is not one of
    its tokens; [Allow: 204, foo] and [Preview: 0] are detected, and a
    request with neither header is not. *)
Theorem C1_allow_204_substring :
  Examples.allow_204_of [("Allow", "2040")] = Return true /\
  Examples.allow_204_spec_of [("Allow", "2040")] = Return false /\
  Examples.allow_204_of [("Allow", "204, foo")] = Return true /\
  Examples.allow_204_spec_of [("Allow", "204, foo")] = Return true /\
  Examples.allow_204_of [("Preview", "0")] = Return true /\
  Examples.allow_204_spec_of [("Preview", "0")] = Return true /\
  Examples.allow_204_of [("Host", "example")] = Return false.
Proof. repeat split; vm_compute; reflexivity. Qed.

(** ** [OrderedDict] *)

Section odict_facts.
Context {V : Type}.
Implicit Types (d : OrderedDict.t V) (k : string) (v : V).

Lemma find_setitem d k v k' :
  OrderedDict.find (OrderedDict.__setitem__ d k v) k' =
    if decide (k = k') then Some v else OrderedDict.find d k'.
Proof.
  induction d as [|[k0 v0] d IH]; simpl.
  - done.
  - destruct (decide (k0 = k)) as [->|Hne]; simpl.
    + by destruct (decide (k = k')).
    + rewrite IH. destruct (decide (k0 = k')) as [->|]; [|done].
      by rewrite decide_False by done.
Qed.

Lemma find_is_Some d k :
  is_Some (OrderedDict.find d k) <-> k ∈ OrderedDict.keys d.
Proof.
  unfold OrderedDict.keys. induction d as [|[k0 v0] d IH]; simpl.
  - rewrite elem_of_nil. split; [by intros [? ?]|done].
  - rewrite elem_of_cons. destruct (decide (k0 = k)) as [->|Hne].
    + split; [by left|by eauto].
    + rewrite IH. split; [by right|]. by intros [?|?].
Qed.

Lemma find_None d k :
  OrderedDict.find d k = None <-> k ∉ OrderedDict.keys d.
Proof. rewrite <-find_is_Some, eq_None_not_Some. done. Qed.

Lemma contains_true d k :
  OrderedDict.__contains__ d k = true <-> k ∈ OrderedDict.keys d.
Proof.
  rewrite <-find_is_Some. unfold OrderedDict.__contains__.
  destruct (OrderedDict.find d k); split; try done; by intros [? ?].
Qed.

Lemma keys_setitem d k v :
  OrderedDict.keys (OrderedDict.__setitem__ d k v) =
    if OrderedDict.find d k is Some _ then OrderedDict.keys d
    else OrderedDict.keys d ++ [k].
Proof.
  unfold OrderedDict.keys. induction d as [|[k0 v0] d IH]; [done|].
  cbn [OrderedDict.__setitem__ OrderedDict.find].
  destruct (decide (k0 = k)) as [->|Hne]; [done|].
  rewrite !fmap_cons, IH. by destruct (OrderedDict.find d k).
Qed.

Lemma find_of_elem d k v :
  NoDup (OrderedDict.keys d) -> (k, v) ∈ d -> OrderedDict.find d k = Some v.
Proof.
  unfold OrderedDict.keys. induction d as [|[k0 v0] d IH]; simpl.
  - by intros _ ?%elem_of_nil.
  - intros [Hk0 Hnd]%NoDup_cons [Heq|Hin]%elem_of_cons.
    + simplify_eq. by rewrite decide_True.
    + rewrite decide_False; [by apply IH|].
      intros ->. apply Hk0. apply list_elem_of_fmap. by exists (k, v).
Qed.

Lemma find_remove d k k' :
  OrderedDict.find (OrderedDict.remove d k) k' =
    if decide (k = k') then None else OrderedDict.find d k'.
Proof.
  unfold OrderedDict.remove. induction d as [|[k0 v0] d IH].
  - simpl. by destruct (decide (k = k')).
  - rewrite filter_cons. cbn [fst OrderedDict.find].
    destruct (decide (k0 ≠ k)) as [Hne|Heq%dec_stable].
    + cbn [OrderedDict.find]. rewrite IH.
      destruct (decide (k0 = k')) as [->|]; [|done].
      by rewrite decide_False by done.
    + subst k0. rewrite IH. destruct (decide (k = k')); done.
Qed.

Lemma keys_remove d k :
  OrderedDict.keys (OrderedDict.remove d k) =
    filter (fun k' => k' ≠ k) (OrderedDict.keys d).
Proof.
  unfold OrderedDict.keys, OrderedDict.remove.
  induction d as [|[k0 v0] d IH]; [done|].
  rewrite fmap_cons, !filter_cons. cbn [fst].
  destruct (decide (k0 ≠ k)); rewrite ?fmap_cons, IH; done.
Qed.

(** Removing a key leaves no entry under it and touches no other entry. *)
Lemma remove_spec d k :
  (k ∉ OrderedDict.keys (OrderedDict.remove d k)) /\
  forall k', k' ≠ k ->
    OrderedDict.find (OrderedDict.remove d k) k' = OrderedDict.find d k'.
Proof.
  split.
  - rewrite <-find_None, find_remove. by rewrite decide_True.
  - intros k' Hne. rewrite find_remove. by rewrite decide_False.
Qed.

End odict_facts.

(** ** [HeadersDict]: insertion and lookup *)

Section headers_facts.
Import Text.
Implicit Types (h : HeadersDict.t) (key value : string).

Lemma contains_lower h key :
  HeadersDict.__contains__ h (lower key) = HeadersDict.__contains__ h key.
Proof.
  unfold HeadersDict.__contains__. by rewrite lower_idemp.
Qed.

Lemma contains_stored h key :
  HeadersDict.__contains__ h key = false -> HeadersDict.stored h key = [].
Proof.
  unfold HeadersDict.__contains__, HeadersDict.stored,
    OrderedDict.__contains__.
  by destruct (OrderedDict.find h (lower key)).
Qed.

(** Insertion never raises: it appends to the pairs stored under the name. *)
Lemma setitem_Return h key value :
  HeadersDict.__setitem__ h key value =
    Return (OrderedDict.__setitem__ h (lower key)
              (HeadersDict.stored h key ++ [(key, value)])).
Proof.
  unfold HeadersDict.__setitem__. rewrite contains_lower.
  unfold HeadersDict.__contains__, HeadersDict.stored,
    OrderedDict.__contains__, OrderedDict.__getitem__.
  by destruct (OrderedDict.find h (lower key)).
Qed.

Lemma stored_setitem h key key' l :
  HeadersDict.stored (OrderedDict.__setitem__ h (lower key) l) key' =
    if decide (lower key = lower key') then l else HeadersDict.stored h key'.
Proof.
  unfold HeadersDict.stored. rewrite find_setitem. by case_decide.
Qed.

Lemma getlist_stored h key :
  HeadersDict.getlist h key = Return ((HeadersDict.stored h key).*2).
Proof.
  unfold HeadersDict.getlist, HeadersDict.stored, OrderedDict.__getitem__.
  by destruct (OrderedDict.find h (lower key)).
Qed.

Lemma getitem_stored h key :
  HeadersDict.__getitem__ h key =
    match OrderedDict.find h (lower key) with
    | None => Raise KeyError
    | Some [] => Raise IndexError
    | Some ((_, v) :: _) => Return v
    end.
Proof.
  unfold HeadersDict.__getitem__, OrderedDict.__getitem__.
  by destruct (OrderedDict.find h (lower key)).
Qed.

(** Looking a name up is blind to its case. *)
Lemma getitem_case h key key' :
  lower key = lower key' ->
  HeadersDict.__getitem__ h key = HeadersDict.__getitem__ h key'.
Proof. intros Heq. by rewrite !getitem_stored, Heq. Qed.

(** Two insertions under one text name. *)
Lemma two_inserts_then_getlist h (N v1 v2 : string) :
  exists h1 h2 before,
    HeadersDict.__setitem__ h N v1 = Return h1 /\
    HeadersDict.__setitem__ h1 N v2 = Return h2 /\
    HeadersDict.getlist h N = Return before /\
    HeadersDict.getlist h2 N = Return (before ++ [v1; v2]) /\
    (forall v0, HeadersDict.__getitem__ h N = Return v0 ->
       HeadersDict.__getitem__ h2 N = Return v0) /\
    (HeadersDict.__contains__ h N = false ->
       HeadersDict.getlist h2 N = Return [v1; v2] /\
       HeadersDict.__getitem__ h2 N = Return v1).
Proof.
  eexists _, _, _. rewrite !setitem_Return. split; [done|]. split; [done|].
  rewrite !getlist_stored. split; [done|].
  rewrite !stored_setitem, !decide_True by done.
  split; [by rewrite !fmap_app, <-(assoc_L (++))|].
  split.
  - intros v0. rewrite !getitem_stored, !find_setitem, !decide_True by done.
    unfold HeadersDict.stored.
    destruct (OrderedDict.find h (Text.lower N)) as [[|[n0 v0'] l]|]; done.
  - intros Hnew%contains_stored. rewrite Hnew. split; [done|].
    by rewrite getitem_stored, find_setitem, decide_True.
Qed.

End headers_facts.

(** ** [HeadersDict]: the type check of names and values *)

Section headers_any_facts.
Import HeadersDictAny.
Variable decode : list Byte.byte -> outcome string.
Implicit Types (h : HeadersDict.t) (k v : arg) (key value : string).

(** Arguments that pass the check are inserted as the texts it returns. *)
Lemma setitem_checked h k v key value :
  _checktype decode k = Return key ->
  _checktype decode v = Return value ->
  __setitem__ decode h k v = HeadersDict.__setitem__ h key value.
Proof. unfold __setitem__. by intros -> ->. Qed.

(** A name or a value that fails the check makes the insertion raise what
    the check raised; the name is checked first. *)
Lemma setitem_unchecked h k v e :
  _checktype decode k = Raise e \/
  (exists key, _checktype decode k = Return key /\ _checktype decode v = Raise e) ->
  __setitem__ decode h k v = Raise e.
Proof.
  unfold __setitem__. intros [->|(key & -> & Hv)]; [done|].
  simpl. by rewrite Hv.
Qed.

Lemma contains_checked h k key :
  _checktype decode k = Return key ->
  __contains__ decode h k = Return (HeadersDict.__contains__ h key).
Proof. unfold __contains__. by intros ->. Qed.

Lemma getitem_checked h k key :
  _checktype decode k = Return key ->
  __getitem__ decode h k = HeadersDict.__getitem__ h key.
Proof. unfold __getitem__. by intros ->. Qed.

Lemma getlist_Str h key :
  getlist h (Str key) = HeadersDict.getlist h key.
Proof. done. Qed.

(** [getlist] with a [bytes] name finds nothing: the stored names are
    text. *)
Lemma getlist_Bytes h b : getlist h (Bytes b) = Return [].
Proof. done. Qed.

(** A constructor call whose items all pass the check is the constructor
    call on the checked texts. *)
Lemma for_each_checked (items : list (arg * arg)) (texts : list (string * string)) h :
  Forall2 (fun a t => _checktype decode a.1 = Return t.1 /\
                      _checktype decode a.2 = Return t.2) items texts ->
  for_each (fun self kv => __setitem__ decode self kv.1 kv.2) items h =
  for_each (fun self kv => HeadersDict.__setitem__ self kv.1 kv.2) texts h.
Proof.
  intros Hall. revert h. induction Hall as [|a t items texts [Hk Hv] _ IH]; intros h.
  - done.
  - cbn [for_each]. rewrite (setitem_checked h a.1 a.2 t.1 t.2 Hk Hv).
    destruct (HeadersDict.__setitem__ h t.1 t.2) as [h'|e]; [|done].
    apply IH.
Qed.

(** The constructor stops at the first item that fails the check. *)
Lemma for_each_unchecked (pre rest : list (arg * arg)) (texts : list (string * string))
    k v e h :
  Forall2 (fun a t => _checktype decode a.1 = Return t.1 /\
                      _checktype decode a.2 = Return t.2) pre texts ->
  _checktype decode k = Raise e \/
  (exists key, _checktype decode k = Return key /\ _checktype decode v = Raise e) ->
  for_each (fun self kv => __setitem__ decode self kv.1 kv.2)
           (pre ++ (k, v) :: rest) h = Raise e.
Proof.
  intros Hall Hbad. revert h.
  induction Hall as [|a t pre texts [Hk Hv] _ IH]; intros h.
  - cbn [app for_each fst snd]. by rewrite (setitem_unchecked h k v e Hbad).
  - cbn [app for_each]. rewrite (setitem_checked h a.1 a.2 t.1 t.2 Hk Hv).
    rewrite setitem_Return. apply IH.
Qed.

End headers_any_facts.

(** C3, as stated, fails: in a [HeadersDict] that already holds [("X", "a")],
    inserting [("X", "b")] and then [("X", "c")] makes [getlist("X")] return
    the three values and [h["X"]] return ["a"], not [["b"; "c"]] and ["b"]. *)
Lemma C3_earlier_values_come_first :
  exists h0 h1 h2,
    HeadersDict.__init__ [("X", "a")] = Return h0 /\
    HeadersDict.__setitem__ h0 "X" "b" = Return h1 /\
    HeadersDict.__setitem__ h1 "X" "c" = Return h2 /\
    HeadersDict.getlist h2 "X" = Return ["a"; "b"; "c"] /\
    HeadersDict.getlist h2 "X" ≠ Return ["b"; "c"] /\
    HeadersDict.__getitem__ h2 "X" = Return "a" /\
    HeadersDict.__getitem__ h2 "X" ≠ Return "b".
Proof. do 3 eexists. repeat split; try (vm_compute; reflexivity); vm_compute; discriminate. Qed.

(** C3, amended: let [N], [v1] and [v2] be arguments that pass the type
    check of the class, each a [str] or a [bytes] that decodes.  For every
    [HeadersDict] [h], inserting [(N, v1)] and then [(N, v2)] succeeds, and
    afterwards [getlist] called with the text of [N] returns what it
    returned before followed by the texts of [v1] and [v2], and a lookup
    [h[N]] that succeeded before still returns the same value; when [h] held
    no pair under [N] (compared without case), that [getlist] returns the
    two texts alone and [h[N]] returns the text of [v1].  [getlist] does not
    decode its argument: called with a [bytes] name it returns the empty
    list.  An insertion whose name or value fails the check raises what the
    check raised, [TypeError] for an [int] or [None]. *)
Theorem C3_two_inserts_then_getlist (decode : list Byte.byte -> outcome string)
    (h : HeadersDict.t) (kN kv1 kv2 : HeadersDictAny.arg) (N v1 v2 : string) :
  HeadersDictAny._checktype decode kN = Return N ->
  HeadersDictAny._checktype decode kv1 = Return v1 ->
  HeadersDictAny._checktype decode kv2 = Return v2 ->
  (exists h1 h2 before,
     HeadersDictAny.__setitem__ decode h kN kv1 = Return h1 /\
     HeadersDictAny.__setitem__ decode h1 kN kv2 = Return h2 /\
     HeadersDictAny.getlist h (HeadersDictAny.Str N) = Return before /\
     HeadersDictAny.getlist h2 (HeadersDictAny.Str N) = Return (before ++ [v1; v2]) /\
     (forall v0, HeadersDictAny.__getitem__ decode h kN = Return v0 ->
        HeadersDictAny.__getitem__ decode h2 kN = Return v0) /\
     (HeadersDictAny.__contains__ decode h kN = Return false ->
        HeadersDictAny.getlist h2 (HeadersDictAny.Str N) = Return [v1; v2] /\
        HeadersDictAny.__getitem__ decode h2 kN = Return v1) /\
     (forall b, kN = HeadersDictAny.Bytes b ->
        HeadersDictAny.getlist h2 kN = Return [])) /\
  (forall k v e,
     HeadersDictAny._checktype decode k = Raise e \/
     (exists key, HeadersDictAny._checktype decode k = Return key /\
                  HeadersDictAny._checktype decode v = Raise e) ->
     HeadersDictAny.__setitem__ decode h k v = Raise e) /\
  (forall n, HeadersDictAny._checktype decode (HeadersDictAny.Int n) = Raise TypeError) /\
  HeadersDictAny._checktype decode HeadersDictAny.NoneArg = Raise TypeError.
Proof.
  intros HN Hv1 Hv2. split; [|split; [|done]].
  - destruct (two_inserts_then_getlist h N v1 v2)
      as (h1 & h2 & before & H1 & H2 & Hbefore & Hafter & Hget & Hnew).
    exists h1, h2, before.
    rewrite (setitem_checked decode h kN kv1 N v1 HN Hv1).
    rewrite (setitem_checked decode h1 kN kv2 N v2 HN Hv2).
    rewrite !getlist_Str, !(getitem_checked decode _ kN N HN).
    rewrite (contains_checked decode h kN N HN).
    split; [done|]. split; [done|]. split; [done|]. split; [done|].
    split; [done|]. split.
    + intros [= Hc]. by apply Hnew.
    + by intros b ->.
  - intros k v e. apply setitem_unchecked.
Qed.

Lemma C3_two_inserts_then_getlist_witness :
  exists h1 h2 before,
    HeadersDictAny.__setitem__ HeadersDictAny.decode_utf8
      [("host", [("Host", "example")])]
      (HeadersDictAny.Bytes (Text.encode_utf8 "Via")) (HeadersDictAny.Str "p1")
      = Return h1 /\
    HeadersDictAny.__setitem__ HeadersDictAny.decode_utf8 h1
      (HeadersDictAny.Bytes (Text.encode_utf8 "Via")) (HeadersDictAny.Str "p2")
      = Return h2 /\
    HeadersDictAny.getlist [("host", [("Host", "example")])] (HeadersDictAny.Str "Via")
      = Return before /\
    HeadersDictAny.getlist h2 (HeadersDictAny.Str "Via")
      = Return (before ++ ["p1"; "p2"]) /\
    (forall v0,
       HeadersDictAny.__getitem__ HeadersDictAny.decode_utf8
         [("host", [("Host", "example")])]
         (HeadersDictAny.Bytes (Text.encode_utf8 "Via")) = Return v0 ->
       HeadersDictAny.__getitem__ HeadersDictAny.decode_utf8 h2
         (HeadersDictAny.Bytes (Text.encode_utf8 "Via")) = Return v0) /\
    (HeadersDictAny.__contains__ HeadersDictAny.decode_utf8
       [("host", [("Host", "example")])]
       (HeadersDictAny.Bytes (Text.encode_utf8 "Via")) = Return false ->
       HeadersDictAny.getlist h2 (HeadersDictAny.Str "Via") = Return ["p1"; "p2"] /\
       HeadersDictAny.__getitem__ HeadersDictAny.decode_utf8 h2
         (HeadersDictAny.Bytes (Text.encode_utf8 "Via")) = Return "p1") /\
    (forall b, HeadersDictAny.Bytes (Text.encode_utf8 "Via") = HeadersDictAny.Bytes b ->
       HeadersDictAny.getlist h2 (HeadersDictAny.Bytes (Text.encode_utf8 "Via"))
       = Return []).
Proof.
  refine (proj1 (C3_two_inserts_then_getlist HeadersDictAny.decode_utf8
                   [("host", [("Host", "example")])]
                   (HeadersDictAny.Bytes (Text.encode_utf8 "Via"))
                   (HeadersDictAny.Str "p1") (HeadersDictAny.Str "p2")
                   "Via" "p1" "p2" _ _ _)); reflexivity.
Defined.

(** ** [HeadersDict.pop] *)

Section pop_facts.
Import Text.
Implicit Types (h : HeadersDict.t) (key : string).

(** What [pop] does for a name that is present: it hands back the stored
    list of [(name, value)] pairs and removes the whole entry. *)
Lemma pop_present h key l default :
  OrderedDict.find h (lower key) = Some l ->
  HeadersDict.pop h key default = Return (l, OrderedDict.remove h (lower key)).
Proof.
  intros Hl. unfold HeadersDict.pop, OrderedDict.pop. by rewrite Hl.
Qed.

Lemma pop_absent h key :
  OrderedDict.find h (lower key) = None ->
  HeadersDict.pop h key None = Raise KeyError.
Proof.
  intros Hl. unfold HeadersDict.pop, OrderedDict.pop. by rewrite Hl.
Qed.

(** After the removal no pair is left under the name, in any case. *)
Lemma removed_name_is_absent h key key' :
  lower key' = lower key ->
  HeadersDict.__contains__ (OrderedDict.remove h (lower key)) key' = false /\
  HeadersDict.stored (OrderedDict.remove h (lower key)) key' = [].
Proof.
  intros Heq.
  unfold HeadersDict.__contains__, HeadersDict.stored,
    OrderedDict.__contains__.
  by rewrite Heq, find_remove, decide_True.
Qed.

(** The pairs of every other name stay. *)
Lemma removed_name_only h key key' :
  lower key' ≠ lower key ->
  HeadersDict.stored (OrderedDict.remove h (lower key)) key' =
    HeadersDict.stored h key'.
Proof.
  intros Hne. unfold HeadersDict.stored. by rewrite find_remove, decide_False.
Qed.

(** [self[key]] followed by [del self[key]] does what the spec asks of
    [pop]: the first value comes back, the entry goes. *)
Lemma pop_spec_present h key n v l :
  OrderedDict.find h (lower key) = Some ((n, v) :: l) ->
  HeadersDict.pop_spec h key = Return (v, OrderedDict.remove h (lower key)).
Proof.
  intros Hl.
  unfold HeadersDict.pop_spec, HeadersDict.__delitem__, OrderedDict.__delitem__,
    OrderedDict.__contains__.
  by rewrite getitem_stored, Hl.
Qed.

End pop_facts.

(** C4 (code defect): in the [HeadersDict] built from [X-Test: a],
    [x-test: b], [Y: c], the first value under [X-Test] is ["a"]
    ([h["X-Test"]] returns it), but [pop("X-Test")] returns the stored list
    of the two [(name, value)] pairs; both pairs are removed, as [self[key]]
    followed by [del self[key]] would also do. *)
Theorem C4_pop_returns_the_stored_pairs :
  exists h,
    HeadersDict.__init__ [("X-Test", "a"); ("x-test", "b"); ("Y", "c")] = Return h /\
    HeadersDict.__getitem__ h "X-Test" = Return "a" /\
    HeadersDict.pop h "X-Test" None =
      Return ([("X-Test", "a"); ("x-test", "b")], [("y", [("Y", "c")])]) /\
    HeadersDict.pop_spec h "X-Test" = Return ("a", [("y", [("Y", "c")])]).
Proof. eexists. repeat split; vm_compute; reflexivity. Qed.

(** ** [HeadersDict]: construction and serialization *)

Section bytes_facts.
Import Text.
Implicit Types (h : HeadersDict.t) (items : list (string * string)).

Lemma for_each_app {A S : Type} (body : S -> A -> outcome S) (xs ys : list A) (s : S) :
  for_each body (xs ++ ys) s = s' ← for_each body xs s; for_each body ys s'.
Proof.
  revert s. induction xs as [|x xs IH]; intros s; simpl; [done|].
  destruct (body s x) as [s'|e]; simpl; [apply IH|done].
Qed.

Lemma elem_of_nub (l : list string) (k : string) : k ∈ HeadersDict.nub l <-> k ∈ l.
Proof.
  induction l as [|k0 l IH]; simpl; [done|].
  rewrite !elem_of_cons, list_elem_of_filter, IH.
  destruct (decide (k = k0)) as [->|Hne].
  - split; by left.
  - split; [intros [?|[_ ?]]; [done|by right] | intros [?|?]; [done|by right]].
Qed.

Lemma NoDup_nub (l : list string) : NoDup (HeadersDict.nub l).
Proof.
  induction l as [|k0 l IH]; simpl; [constructor|].
  apply NoDup_cons. split; [|by apply NoDup_filter].
  rewrite list_elem_of_filter. by intros [Hk0 _].
Qed.

Lemma filter_all {A : Type} (P : A -> Prop) `{!forall x, Decision (P x)} (l : list A) :
  Forall P l -> filter P l = l.
Proof.
  induction 1 as [|x l Hx _ IH]; [done|].
  by rewrite filter_cons_True, IH.
Qed.

Lemma filter_none {A : Type} (P : A -> Prop) `{!forall x, Decision (P x)} (l : list A) :
  Forall (fun x => ~ P x) l -> filter P l = [].
Proof.
  induction 1 as [|x l Hx _ IH]; [done|].
  by rewrite filter_cons_False.
Qed.

Lemma nub_NoDup (l : list string) : NoDup l -> HeadersDict.nub l = l.
Proof.
  induction 1 as [|k l Hk _ IH]; simpl; [done|].
  rewrite IH, filter_all; [done|].
  apply Forall_forall. intros k' Hk' ->. done.
Qed.

Lemma nub_snoc (l : list string) (k : string) :
  HeadersDict.nub (l ++ [k]) =
    if decide (k ∈ l) then HeadersDict.nub l else HeadersDict.nub l ++ [k].
Proof.
  induction l as [|k0 l IH]; cbn [app HeadersDict.nub].
  - rewrite filter_nil. by rewrite decide_False by apply not_elem_of_nil.
  - rewrite IH.
    destruct (decide (k ∈ l)) as [Hin|Hnin];
      destruct (decide (k ∈ k0 :: l)) as [Hin'|Hnin'].
    + done.
    + destruct Hnin'. by apply list_elem_of_further.
    + apply elem_of_cons in Hin' as [->|?]; [|done].
      rewrite filter_app, filter_cons, filter_nil.
      case_decide; [done|]. by rewrite app_nil_r.
    + rewrite filter_app, filter_cons, filter_nil.
      case_decide as Hk; [done|]. subst k.
      destruct Hnin'. apply list_elem_of_here.
Qed.

Lemma under_snoc k items (x : string * string) :
  HeadersDict.under k (items ++ [x]) =
    HeadersDict.under k items ++ (if decide (lower x.1 = k) then [x] else []).
Proof.
  unfold HeadersDict.under. by rewrite filter_app.
Qed.

Lemma init_snoc items (x : string * string) :
  HeadersDict.__init__ (items ++ [x]) =
    h ← HeadersDict.__init__ items; HeadersDict.__setitem__ h x.1 x.2.
Proof.
  unfold HeadersDict.__init__. rewrite for_each_app.
  destruct (for_each _ items HeadersDict.empty) as [h|e]; simpl; [|done].
  by destruct (HeadersDict.__setitem__ h x.1 x.2).
Qed.

(** What the constructor builds: the names in order of first occurrence,
    and under each name the items of that name in their order. *)
Lemma init_spec items :
  exists h,
    HeadersDict.__init__ items = Return h /\
    OrderedDict.keys h = HeadersDict.nub ((fun p => lower p.1) <$> items) /\
    forall k, default [] (OrderedDict.find h k) = HeadersDict.under k items.
Proof.
  induction items as [|[n v] items (h & Hh & Hkeys & Hfind)] using rev_ind.
  - exists []. done.
  - eexists. rewrite init_snoc, Hh. simpl. rewrite setitem_Return.
    split; [done|]. split.
    + rewrite keys_setitem, fmap_app, fmap_cons, fmap_nil, nub_snoc, Hkeys.
      cbn [fst].
      destruct (OrderedDict.find h (lower n)) as [l|] eqn:Hl.
      * rewrite decide_True; [done|].
        apply elem_of_nub. rewrite <-Hkeys. apply find_is_Some. by eexists.
      * rewrite decide_False; [done|].
        rewrite <-elem_of_nub, <-Hkeys. by apply find_None.
    + intros k. rewrite find_setitem, under_snoc. simpl.
      unfold HeadersDict.stored. rewrite Hfind.
      case_decide as Hk; simpl; [by subst k|]. by rewrite Hfind, app_nil_r.
Qed.

Lemma values_by_keys h :
  NoDup (OrderedDict.keys h) ->
  h.*2 = (fun k => default [] (OrderedDict.find h k)) <$> OrderedDict.keys h.
Proof.
  unfold OrderedDict.keys. induction h as [|[k0 l0] h IH]; [done|].
  rewrite !fmap_cons. cbn [fst snd]. intros [Hk0 Hnd]%NoDup_cons.
  cbn [OrderedDict.find]. rewrite decide_True by done. f_equal.
  rewrite IH by done. apply Forall_fmap_ext, Forall_forall.
  intros k Hk. rewrite decide_False; [done|]. by intros ->.
Qed.

Lemma init_wf items h :
  HeadersDict.__init__ items = Return h -> HeadersDict.wf h.
Proof.
  destruct (init_spec items) as (h' & Hh & Hkeys & Hfind).
  rewrite Hh. intros [= <-]. split.
  - rewrite Hkeys. apply NoDup_nub.
  - assert (NoDup (OrderedDict.keys h')) as Hnd by (rewrite Hkeys; apply NoDup_nub).
    apply Forall_forall. intros [k l] Hkl. simpl.
    pose proof (find_of_elem _ _ _ Hnd Hkl) as Hl.
    specialize (Hfind k). rewrite Hl in Hfind. simpl in Hfind. subst l. split.
    + assert (k ∈ OrderedDict.keys h') as Hk.
      { apply find_is_Some. by eexists. }
      rewrite Hkeys, elem_of_nub in Hk.
      apply list_elem_of_fmap in Hk as (p & -> & Hp).
      intros Hnil. unfold HeadersDict.under in Hnil.
      by eapply (filter_nil_not_elem_of (fun q => lower q.1 = lower p.1) items p).
    + apply Forall_forall. by intros p [? _]%list_elem_of_filter.
Qed.

Lemma init_pairs items h :
  HeadersDict.__init__ items = Return h ->
  HeadersDict.pairs h = HeadersDict.by_name items.
Proof.
  destruct (init_spec items) as (h' & Hh & Hkeys & Hfind).
  rewrite Hh. intros [= <-]. unfold HeadersDict.pairs, HeadersDict.by_name.
  rewrite values_by_keys by (rewrite Hkeys; apply NoDup_nub).
  rewrite Hkeys. f_equal. apply Forall_fmap_ext, Forall_forall. by intros k _.
Qed.

(** When no name occurs twice, regrouping changes nothing. *)
Lemma by_name_distinct items :
  NoDup ((fun p => lower p.1) <$> items) -> HeadersDict.by_name items = items.
Proof.
  unfold HeadersDict.by_name. intros Hnd. rewrite nub_NoDup by done.
  induction items as [|[n v] items IH]; [done|].
  rewrite fmap_cons in Hnd. apply NoDup_cons in Hnd as [Hn Hnd].
  rewrite !fmap_cons. cbn [concat fst]. unfold HeadersDict.under at 1.
  rewrite filter_cons_True by done. rewrite filter_none.
  - simpl. f_equal. rewrite <-IH at 2 by done. f_equal.
    apply Forall_fmap_ext, Forall_forall. intros k Hk.
    unfold HeadersDict.under. rewrite filter_cons_False; [done|].
    simpl. by intros <-.
  - apply Forall_forall. intros p Hp Hlow. apply Hn.
    apply list_elem_of_fmap. by exists p.
Qed.

Lemma getitem_found {V : Type} (d : OrderedDict.t V) (k : string) (v : V) :
  OrderedDict.find d k = Some v -> OrderedDict.__getitem__ d k = Return v.
Proof. intros Hv. unfold OrderedDict.__getitem__. by rewrite Hv. Qed.

Lemma bytes_loop h (l : list (string * list (string * string))) (acc : list (list Byte.byte)) :
  (forall k v, (k, v) ∈ l -> OrderedDict.find h k = Some v) ->
  for_each
    (fun acc k =>
       stored ← OrderedDict.__getitem__ h k;
       Return (acc ++ (HeadersDict.line <$> stored)))
    (l.*1) acc
  = Return (acc ++ (HeadersDict.line <$> concat (l.*2))).
Proof.
  revert acc. induction l as [|[k v] l IH]; intros acc Hl.
  - simpl. by rewrite app_nil_r.
  - rewrite !fmap_cons. cbn [for_each fst snd concat].
    rewrite (getitem_found h k v) by apply Hl, list_elem_of_here.
    cbn [mbind outcome_bind].
    rewrite IH by (intros; apply Hl; by apply list_elem_of_further).
    by rewrite fmap_app, (assoc_L (++)).
Qed.

Lemma bytes_join_terminated (sep : list Byte.byte) (lines : list (list Byte.byte)) :
  lines ≠ [] ->
  bytes_join sep lines ++ sep = concat ((fun x => x ++ sep) <$> lines).
Proof.
  induction lines as [|x lines IH]; [done|]. intros _.
  destruct lines as [|y lines].
  - simpl. by rewrite app_nil_r.
  - cbn [bytes_join]. rewrite fmap_cons. cbn [concat].
    rewrite <-IH by done. by rewrite <-!(assoc_L (++)).
Qed.

(** Serialization of a well-formed [HeadersDict]: one terminated line per
    stored pair, in the dict's order. *)
Lemma bytes_of_wf h :
  HeadersDict.wf h ->
  HeadersDict.__bytes__ h = Return (HeadersDict.block (HeadersDict.pairs h)).
Proof.
  intros [Hnd Hne]. unfold HeadersDict.__bytes__.
  destruct h as [|[k0 l0] h'] eqn:Hh; [done|].
  rewrite bool_decide_eq_false_2 by done. rewrite <-Hh in *.
  unfold OrderedDict.keys.
  rewrite (bytes_loop h h []) by (intros; by apply find_of_elem).
  simpl. f_equal. rewrite bytes_join_terminated.
  - unfold HeadersDict.block, HeadersDict.pairs. by rewrite <-list_fmap_compose.
  - subst h. apply Forall_cons in Hne as [[Hl0 _] _].
    rewrite fmap_cons. cbn [snd concat]. destruct l0; done.
Qed.

End bytes_facts.

(** C6, as stated, fails: for the headers inserted in the order [A: 1],
    [B: 2], [A: 3] the serialization is [A: 1], [A: 3], [B: 2]: the second
    [A] line moves in front of the [B] line that was inserted before it, so
    the lines are not in insertion order. *)
Lemma C6_lines_are_grouped_by_name :
  exists h,
    HeadersDict.__init__ Examples.interleaved = Return h /\
    HeadersDict.__bytes__ h =
      Return (HeadersDict.block [("A", "1"); ("A", "3"); ("B", "2")]) /\
    HeadersDict.__bytes__ h ≠ Return (HeadersDict.block Examples.interleaved).
Proof.
  eexists. split; [vm_compute; reflexivity|].
  split; [vm_compute; reflexivity | vm_compute; discriminate].
Qed.

(** C6, amended: a [HeadersDict] serializes to one [Name: Value\r\n] line per
    stored pair and nothing else (so a non-empty block ends with the [\r\n]
    of its last line, and the empty [HeadersDict] gives the empty byte
    string); the lines are grouped by field name: names in the order of
    their first insertion and, under one name, its pairs in insertion order.
    For headers whose names are pairwise different (compared without case)
    this is the insertion order. *)
Theorem C6_one_line_per_stored_pair :
  (forall h, HeadersDict.wf h ->
     HeadersDict.__bytes__ h = Return (HeadersDict.block (HeadersDict.pairs h))) /\
  (forall items, exists h,
     HeadersDict.__init__ items = Return h /\
     HeadersDict.wf h /\
     HeadersDict.__bytes__ h = Return (HeadersDict.block (HeadersDict.by_name items)) /\
     (NoDup ((fun p => Text.lower p.1) <$> items) ->
        HeadersDict.__bytes__ h = Return (HeadersDict.block items))) /\
  HeadersDict.__bytes__ HeadersDict.empty = Return [].
Proof.
  split; [exact bytes_of_wf|]. split; [|done].
  intros items. destruct (init_spec items) as (h & Hh & _).
  exists h. pose proof (init_wf _ _ Hh) as Hwf.
  pose proof (init_pairs _ _ Hh) as Hpairs.
  split; [done|]. split; [done|].
  rewrite bytes_of_wf, Hpairs by done. split; [done|].
  intros Hnd. by rewrite by_name_distinct.
Qed.

(** ** The methods of [HeadersDict] keep it well formed *)

Section wf_facts.
Import Text.
Implicit Types (h : HeadersDict.t) (key value : string).

Lemma find_elem {V : Type} (d : OrderedDict.t V) (k : string) (v : V) :
  OrderedDict.find d k = Some v -> (k, v) ∈ d.
Proof.
  induction d as [|[k0 v0] d IH]; simpl; [done|].
  destruct (decide (k0 = k)) as [->|Hne].
  - intros [= ->]. apply list_elem_of_here.
  - intros Hv. by apply list_elem_of_further, IH.
Qed.

Lemma Forall_setitem {V : Type} (P : string * V -> Prop)
    (d : OrderedDict.t V) (k : string) (v : V) :
  Forall P d -> P (k, v) -> Forall P (OrderedDict.__setitem__ d k v).
Proof.
  intros Hd Hkv. induction Hd as [|[k0 v0] d Hk0 Hd IH]; simpl.
  - by constructor.
  - destruct (decide (k0 = k)) as [->|Hne]; by constructor.
Qed.

Lemma NoDup_keys_setitem {V : Type} (d : OrderedDict.t V) (k : string) (v : V) :
  NoDup (OrderedDict.keys d) -> NoDup (OrderedDict.keys (OrderedDict.__setitem__ d k v)).
Proof.
  intros Hnd. rewrite keys_setitem.
  destruct (OrderedDict.find d k) eqn:Hk; [done|].
  apply NoDup_app. split; [done|]. split; [|apply NoDup_singleton].
  intros k' Hk' ->%list_elem_of_singleton. by apply find_None in Hk.
Qed.

Lemma wf_empty : HeadersDict.wf HeadersDict.empty.
Proof. split; constructor. Qed.

Lemma wf_stored h key :
  HeadersDict.wf h ->
  Forall (fun p => lower p.1 = lower key) (HeadersDict.stored h key).
Proof.
  intros [_ Hall]. unfold HeadersDict.stored.
  destruct (OrderedDict.find h (lower key)) as [l|] eqn:Hl; [|constructor].
  apply find_elem in Hl. rewrite Forall_forall in Hall.
  by destruct (Hall _ Hl) as [_ ?].
Qed.

Lemma wf_setitem h key value h' :
  HeadersDict.wf h -> HeadersDict.__setitem__ h key value = Return h' ->
  HeadersDict.wf h'.
Proof.
  intros Hwf. rewrite setitem_Return. intros [= <-].
  pose proof (wf_stored h key Hwf) as Hst. destruct Hwf as [Hnd Hall]. split.
  - by apply NoDup_keys_setitem.
  - apply Forall_setitem; [done|]. simpl. split.
    + by destruct (HeadersDict.stored h key).
    + apply Forall_app. split; [done|]. by repeat constructor.
Qed.

Lemma wf_replace h key value :
  HeadersDict.wf h -> HeadersDict.wf (HeadersDict.replace h key value).
Proof.
  intros [Hnd Hall]. split.
  - by apply NoDup_keys_setitem.
  - apply Forall_setitem; [done|]. simpl. split; [done|]. by repeat constructor.
Qed.

Lemma wf_remove h k : HeadersDict.wf h -> HeadersDict.wf (OrderedDict.remove h k).
Proof.
  intros [Hnd Hall]. split.
  - rewrite keys_remove. by apply NoDup_filter.
  - rewrite Forall_forall in Hall. apply Forall_forall.
    intros kv [_ Hkv]%list_elem_of_filter. by apply Hall.
Qed.

Lemma wf_delitem h key h' :
  HeadersDict.wf h -> HeadersDict.__delitem__ h key = Return h' -> HeadersDict.wf h'.
Proof.
  intros Hwf. unfold HeadersDict.__delitem__, OrderedDict.__delitem__.
  destruct (OrderedDict.__contains__ h (lower key)); [|done].
  intros [= <-]. by apply wf_remove.
Qed.

Lemma wf_pop h key l h' :
  HeadersDict.wf h -> HeadersDict.pop h key None = Return (l, h') ->
  HeadersDict.wf h' /\ l ≠ [] /\ HeadersDict.stored h key = l.
Proof.
  intros Hwf. unfold HeadersDict.pop, OrderedDict.pop, HeadersDict.stored.
  destruct (OrderedDict.find h (lower key)) as [l0|] eqn:Hl; [|done].
  intros [= <- <-]. split; [by apply wf_remove|]. split; [|done].
  apply find_elem in Hl. destruct Hwf as [_ Hall].
  rewrite Forall_forall in Hall. by destruct (Hall _ Hl) as [? _].
Qed.

End wf_facts.

(** ** Plain URIs: [urllib.parse] reads back what it wrote *)

Section urllib_facts.
Import Text Urllib.
Implicit Types (s a b : string) (c : ascii) (d : querydict).

Lemma app_String c a b : String c a +:+ b = String c (a +:+ b).
Proof. done. Qed.


Lemma all_app P a b : all P (a +:+ b) = all P a && all P b.
Proof.
  induction a as [|x a IH]; [done|].
  rewrite app_String. cbn [all]. by rewrite IH, andb_assoc.
Qed.


Lemma all_impl (P Q : ascii -> bool) s :
  (forall c, P c = true -> Q c = true) -> all P s = true -> all Q s = true.
Proof.
  intros HPQ. induction s as [|x s IH]; [done|].
  cbn [all]. rewrite !andb_true_iff. intros [? ?]. split; [by apply HPQ|by apply IH].
Qed.




Lemma partition_Some c s a b :
  partition c s = Some (a, b) -> s = a +:+ String c b /\ char_in c a = false.
Proof.
  revert a. induction s as [|x s IH]; intros a; [done|].
  cbn [partition]. destruct (Ascii.eqb_spec x c) as [->|Hx].
  - by intros [= <- <-].
  - destruct (partition c s) as [[a' b']|]; [|done].
    intros [= <- <-]. destruct (IH a' eq_refl) as [-> Ha'].
    split; [done|]. cbn [char_in].
    destruct (Ascii.eqb_spec c x) as [->|_]; done.
Qed.






End urllib_facts.

Section querydict_facts.
Import Text Urllib.
Implicit Types (s a b : string) (c : ascii) (d : querydict) (nv : string * string).




Lemma find_app_None {V : Type} (d d' : OrderedDict.t V) (k : string) :
  OrderedDict.find d k = None -> OrderedDict.find d' k = None ->
  OrderedDict.find (d ++ d') k = None.
Proof.
  rewrite !find_None. unfold OrderedDict.keys. rewrite fmap_app, elem_of_app.
  tauto.
Qed.








End querydict_facts.

Section round_trip_facts.
Import Text Urllib.
Implicit Types (s a b : string) (c : ascii) (d : querydict) (nv : string * string).



















End round_trip_facts.

(** ** [RequestLine] *)

Section request_line_facts.
Import Text.
Implicit Types (U : urllib_parse) (m u v s : string).

(** A text without a space, a space, and any text: [partition(' ')] splits
    at that space. *)
Lemma partition_space_app (a b : string) :
  char_in SP a = false ->
  RequestLine.partition_space (a +:+ String SP b) = Some (a, b).
Proof.
  induction a as [|x a IH]; [done|].
  change (String x a +:+ String SP b) with (String x (a +:+ String SP b)).
  cbn [char_in RequestLine.partition_space].
  rewrite Ascii.eqb_sym. destruct (Ascii.eqb x SP); [done|].
  intros Ha. by rewrite IH.
Qed.

Lemma join_3 (sep a b c : string) :
  join sep [a; b; c] = a +:+ sep +:+ b +:+ sep +:+ c.
Proof. done. Qed.

Lemma split_2_join m u v :
  char_in SP m = false -> char_in SP u = false ->
  RequestLine.split_2 (join " " [m; u; v]) = [m; u; v].
Proof.
  intros Hm Hu. rewrite join_3. unfold RequestLine.split_2.
  change (m +:+ " " +:+ u +:+ " " +:+ v)
    with (m +:+ String SP (u +:+ String SP v)).
  by rewrite !partition_space_app.
Qed.

(** What the constructor returns when it returns. *)
Lemma new_Return U m u v rl :
  RequestLine.__new__ U m u v = Return rl ->
  exists p, urlparse U u = Return p /\
    rl = RequestLine.mk m (_replace_query p (parse_qs U (query p))) v.
Proof.
  unfold RequestLine.__new__. destruct (urlparse U u) as [p|e]; [|done].
  intros [= <-]. by exists p.
Qed.

(** A serialized request line decodes and splits back into the method, the
    rebuilt URI text and the version. *)
Lemma parse_bytes U (rl : RequestLine.t) :
  char_in SP (RequestLine.method rl) = false ->
  char_in SP (RequestLine.uri_text U rl) = false ->
  RequestLine.parse U (RequestLine.__bytes__ U rl) =
    RequestLine.__new__ U (RequestLine.method rl) (RequestLine.uri_text U rl)
      (RequestLine.version rl).
Proof.
  intros Hm Hu. unfold RequestLine.parse, RequestLine.__bytes__.
  by rewrite decode_encode_utf8, split_2_join.
Qed.


End request_line_facts.


(** The same two request lines with the URI [/]: one serialization, two
    methods. *)
Lemma A_slash_slash_V :
  exists rl1 rl2,
    RequestLine.__new__ plain_urllib "A /" "/" "V" = Return rl1 /\
    RequestLine.__new__ plain_urllib "A" "/" "/ V" = Return rl2 /\
    RequestLine.__bytes__ plain_urllib rl1 =
      RequestLine.__bytes__ plain_urllib rl2 /\
    RequestLine.__bytes__ plain_urllib rl1 = Text.encode_utf8 "A / / V" /\
    RequestLine.method rl1 ≠ RequestLine.method rl2.
Proof. do 2 eexists. repeat split; try (vm_compute; reflexivity). discriminate. Qed.

(** Whatever the URL library: when the method and the rebuilt URI text hold
    no space, re-parsing the serialized bytes is the constructor applied to
    the original method, the rebuilt URI text and the original version; the
    re-parsed request line has the original method and version, and equals
    the original exactly when the rebuilt URI text parses to an equal URI. *)
Lemma reparse_is_constructor (U : urllib_parse) (m u v : string)
    (rl : RequestLine.t) :
  RequestLine.__new__ U m u v = Return rl ->
  Text.char_in Text.SP m = false ->
  Text.char_in Text.SP (RequestLine.uri_text U rl) = false ->
  RequestLine.parse U (RequestLine.__bytes__ U rl) =
    RequestLine.__new__ U m (RequestLine.uri_text U rl) v /\
  forall rl',
    RequestLine.parse U (RequestLine.__bytes__ U rl) = Return rl' ->
    RequestLine.method rl' = m /\ RequestLine.version rl' = v /\
    (RequestLine.__eq__ rl' rl <->
       RequestLine.uri_eq (RequestLine.uri rl') (RequestLine.uri rl)).
Proof.
  intros Hnew Hm Hu. destruct (new_Return _ _ _ _ _ Hnew) as (p & Hp & ->).
  rewrite parse_bytes by done. split; [done|].
  intros rl' (p' & Hp' & ->)%new_Return. simpl.
  unfold RequestLine.__eq__. simpl. split; [done|]. split; [done|].
  split; [by intros (_ & ? & _) | by intros ?].
Qed.



(** * Further properties of the modelled code *)

(** ** [HeadersDict]: lookups, replacement, deletion *)

Section headers_more.
Import Text.
Implicit Types (h : HeadersDict.t) (key value : string).

Lemma contains_find h key :
  HeadersDict.__contains__ h key =
    if OrderedDict.find h (lower key) is Some _ then true else false.
Proof. done. Qed.

Lemma get_stored h key d :
  HeadersDict.get h key d =
    match OrderedDict.find h (lower key) with
    | None => Return d
    | Some [] => Raise IndexError
    | Some ((_, v) :: _) => Return v
    end.
Proof.
  unfold HeadersDict.get. rewrite getitem_stored.
  by destruct (OrderedDict.find h (lower key)) as [[|[? ?] ?]|].
Qed.

(** Every lookup of a name is decided by the entry under its lower-cased
    form. *)
Lemma lookups_agree h h' key key' :
  OrderedDict.find h' (lower key') = OrderedDict.find h (lower key) ->
  HeadersDict.__contains__ h' key' = HeadersDict.__contains__ h key /\
  HeadersDict.getlist h' key' = HeadersDict.getlist h key /\
  HeadersDict.__getitem__ h' key' = HeadersDict.__getitem__ h key /\
  forall d, HeadersDict.get h' key' d = HeadersDict.get h key d.
Proof.
  intros Hfind. rewrite !contains_find, !getlist_stored, !getitem_stored.
  unfold HeadersDict.stored. rewrite Hfind. repeat split.
  intros d. by rewrite !get_stored, Hfind.
Qed.

Lemma keys_setitem_contains h key (l : list (string * string)) :
  OrderedDict.keys (OrderedDict.__setitem__ h (lower key) l) =
    if HeadersDict.__contains__ h key then OrderedDict.keys h
    else OrderedDict.keys h ++ [lower key].
Proof.
  rewrite keys_setitem, contains_find.
  by destruct (OrderedDict.find h (lower key)).
Qed.

End headers_more.

(** X1: let the name and the value pass the type check, with texts [N] and
    [v].  After the insertion, every text spelling [N'] of the name that
    differs from [N] only in case is contained in the [HeadersDict], and
    [getlist(N')] returns what it returned before followed by [v].  A
    [bytes] spelling that decodes to [N'] is contained as well and [h[...]]
    finds the same value with it, yet [getlist], which does not decode its
    argument, returns the empty list for it. *)
Theorem X1_insert_then_lookup_in_any_case
    (decode : list Byte.byte -> outcome string) (h : HeadersDict.t)
    (kN kv : HeadersDictAny.arg) (N N' v : string) :
  HeadersDictAny._checktype decode kN = Return N ->
  HeadersDictAny._checktype decode kv = Return v ->
  Text.lower N' = Text.lower N ->
  exists h' before,
    HeadersDictAny.__setitem__ decode h kN kv = Return h' /\
    HeadersDictAny.__contains__ decode h' (HeadersDictAny.Str N') = Return true /\
    HeadersDictAny.getlist h (HeadersDictAny.Str N') = Return before /\
    HeadersDictAny.getlist h' (HeadersDictAny.Str N') = Return (before ++ [v]) /\
    (forall b, decode b = Return N' ->
       HeadersDictAny.__contains__ decode h' (HeadersDictAny.Bytes b) = Return true /\
       HeadersDictAny.__getitem__ decode h' (HeadersDictAny.Bytes b) =
         HeadersDictAny.__getitem__ decode h' (HeadersDictAny.Str N') /\
       HeadersDictAny.getlist h' (HeadersDictAny.Bytes b) = Return []).
Proof.
  intros HN Hv Hcase. eexists _, _.
  rewrite (setitem_checked decode h kN kv N v HN Hv), setitem_Return.
  split; [done|].
  assert (HeadersDict.__contains__
            (OrderedDict.__setitem__ h (Text.lower N)
               (HeadersDict.stored h N ++ [(N, v)])) N' = true) as Hin.
  { by rewrite contains_find, Hcase, find_setitem, decide_True. }
  rewrite (contains_checked decode _ (HeadersDictAny.Str N') N') by done.
  split; [by rewrite Hin|].
  rewrite !getlist_Str, !getlist_stored, stored_setitem.
  rewrite Hcase, !decide_True by done.
  unfold HeadersDict.stored. rewrite Hcase. split; [done|].
  split; [by rewrite fmap_app|].
  intros b Hb.
  rewrite (contains_checked decode _ (HeadersDictAny.Bytes b) N') by done.
  rewrite (getitem_checked decode _ (HeadersDictAny.Bytes b) N') by done.
  rewrite (getitem_checked decode _ (HeadersDictAny.Str N') N') by done.
  unfold HeadersDict.stored in Hin. by rewrite Hin.
Qed.

Lemma X1_insert_then_lookup_in_any_case_witness :
  exists h' before,
    HeadersDictAny.__setitem__ HeadersDictAny.decode_utf8
      [("host", [("Host", "a")])]
      (HeadersDictAny.Bytes (Text.encode_utf8 "HOST")) (HeadersDictAny.Str "b")
      = Return h' /\
    HeadersDictAny.__contains__ HeadersDictAny.decode_utf8 h' (HeadersDictAny.Str "hOsT")
      = Return true /\
    HeadersDictAny.getlist [("host", [("Host", "a")])] (HeadersDictAny.Str "hOsT")
      = Return before /\
    HeadersDictAny.getlist h' (HeadersDictAny.Str "hOsT") = Return (before ++ ["b"]) /\
    (forall b, HeadersDictAny.decode_utf8 b = Return "hOsT" ->
       HeadersDictAny.__contains__ HeadersDictAny.decode_utf8 h' (HeadersDictAny.Bytes b)
         = Return true /\
       HeadersDictAny.__getitem__ HeadersDictAny.decode_utf8 h' (HeadersDictAny.Bytes b) =
         HeadersDictAny.__getitem__ HeadersDictAny.decode_utf8 h'
           (HeadersDictAny.Str "hOsT") /\
       HeadersDictAny.getlist h' (HeadersDictAny.Bytes b) = Return []).
Proof.
  apply (X1_insert_then_lookup_in_any_case HeadersDictAny.decode_utf8
           [("host", [("Host", "a")])]
           (HeadersDictAny.Bytes (Text.encode_utf8 "HOST")) (HeadersDictAny.Str "b")
           "HOST" "hOsT" "b"); reflexivity.
Defined.

(** X2: an insertion whose name and value pass the type check, with texts
    [N] and [v], returns; it changes no lookup of any other name ([in],
    [getlist], [h[M]], [get]), keeps every name already present at its
    position in the iteration order, and puts a new name last.  An
    insertion whose name fails the check, or whose name passes and whose
    value fails, raises what the check raised and the [HeadersDict] stays as
    it was; the check raises [TypeError] for an [int] and for [None]. *)
Theorem X2_insert_leaves_other_names
    (decode : list Byte.byte -> outcome string) (h : HeadersDict.t)
    (kN kv : HeadersDictAny.arg) :
  (forall N v,
     HeadersDictAny._checktype decode kN = Return N ->
     HeadersDictAny._checktype decode kv = Return v ->
     exists h',
       HeadersDictAny.__setitem__ decode h kN kv = Return h' /\
       OrderedDict.keys h' =
         (if HeadersDict.__contains__ h N then OrderedDict.keys h
          else OrderedDict.keys h ++ [Text.lower N]) /\
       forall M, Text.lower M ≠ Text.lower N ->
         HeadersDict.__contains__ h' M = HeadersDict.__contains__ h M /\
         HeadersDict.getlist h' M = HeadersDict.getlist h M /\
         HeadersDict.__getitem__ h' M = HeadersDict.__getitem__ h M /\
         forall d, HeadersDict.get h' M d = HeadersDict.get h M d) /\
  (forall e,
     HeadersDictAny._checktype decode kN = Raise e \/
     (exists N, HeadersDictAny._checktype decode kN = Return N /\
                HeadersDictAny._checktype decode kv = Raise e) ->
     HeadersDictAny.__setitem__ decode h kN kv = Raise e) /\
  (forall n v, HeadersDictAny.__setitem__ decode h (HeadersDictAny.Int n) v
               = Raise TypeError) /\
  (forall N n, HeadersDictAny.__setitem__ decode h (HeadersDictAny.Str N)
                 (HeadersDictAny.Int n) = Raise TypeError) /\
  (forall N, HeadersDictAny.__setitem__ decode h (HeadersDictAny.Str N)
               HeadersDictAny.NoneArg = Raise TypeError).
Proof.
  split; [|split; [|done]].
  - intros N v HN Hv. eexists.
    rewrite (setitem_checked decode h kN kv N v HN Hv), setitem_Return.
    split; [done|]. split; [apply keys_setitem_contains|].
    intros M HM. apply lookups_agree. rewrite find_setitem.
    by rewrite decide_False.
  - intros e. apply setitem_unchecked.
Qed.

Lemma X2_insert_leaves_other_names_witness :
  (exists h',
     HeadersDictAny.__setitem__ HeadersDictAny.decode_utf8 [("host", [("Host", "a")])]
       (HeadersDictAny.Bytes (Text.encode_utf8 "Via")) (HeadersDictAny.Str "p")
       = Return h' /\
     OrderedDict.keys h' =
       (if HeadersDict.__contains__ [("host", [("Host", "a")])] "Via"
        then OrderedDict.keys [("host", [("Host", "a")])]
        else OrderedDict.keys [("host", [("Host", "a")])] ++ [Text.lower "Via"]) /\
     forall M, Text.lower M ≠ Text.lower "Via" ->
       HeadersDict.__contains__ h' M =
         HeadersDict.__contains__ [("host", [("Host", "a")])] M /\
       HeadersDict.getlist h' M = HeadersDict.getlist [("host", [("Host", "a")])] M /\
       HeadersDict.__getitem__ h' M =
         HeadersDict.__getitem__ [("host", [("Host", "a")])] M /\
       forall d, HeadersDict.get h' M d =
                 HeadersDict.get [("host", [("Host", "a")])] M d) /\
  HeadersDictAny.__setitem__ HeadersDictAny.decode_utf8 [("host", [("Host", "a")])]
    (HeadersDictAny.Str "Via") (HeadersDictAny.Int 1) = Raise TypeError.
Proof.
  split.
  - apply (proj1 (X2_insert_leaves_other_names HeadersDictAny.decode_utf8
                    [("host", [("Host", "a")])]
                    (HeadersDictAny.Bytes (Text.encode_utf8 "Via"))
                    (HeadersDictAny.Str "p")) "Via" "p"); reflexivity.
  - apply (proj1 (proj2 (X2_insert_leaves_other_names HeadersDictAny.decode_utf8
                           [("host", [("Host", "a")])]
                           (HeadersDictAny.Str "Via") (HeadersDictAny.Int 1)))
             TypeError).
    right. by exists "Via".
Defined.

(** X3: [replace(N, v)] leaves exactly one pair under the name, whatever
    was stored before and whatever the case used to look it up:
    [getlist] returns [[v]] and [h[N']] returns [v]; the lookups of every
    other name are unchanged, a name already present keeps its position and
    a new name goes last. *)
Theorem X3_replace_keeps_one_pair (h : HeadersDict.t) (N v : string) :
  (forall N', Text.lower N' = Text.lower N ->
     HeadersDict.__contains__ (HeadersDict.replace h N v) N' = true /\
     HeadersDict.getlist (HeadersDict.replace h N v) N' = Return [v] /\
     HeadersDict.__getitem__ (HeadersDict.replace h N v) N' = Return v) /\
  (forall M, Text.lower M ≠ Text.lower N ->
     HeadersDict.__contains__ (HeadersDict.replace h N v) M = HeadersDict.__contains__ h M /\
     HeadersDict.getlist (HeadersDict.replace h N v) M = HeadersDict.getlist h M /\
     HeadersDict.__getitem__ (HeadersDict.replace h N v) M = HeadersDict.__getitem__ h M /\
     forall d, HeadersDict.get (HeadersDict.replace h N v) M d = HeadersDict.get h M d) /\
  OrderedDict.keys (HeadersDict.replace h N v) =
    (if HeadersDict.__contains__ h N then OrderedDict.keys h
     else OrderedDict.keys h ++ [Text.lower N]).
Proof.
  unfold HeadersDict.replace. split; [|split].
  - intros N' Hcase.
    rewrite contains_find, getlist_stored, getitem_stored, stored_setitem.
    by rewrite Hcase, find_setitem, !decide_True.
  - intros M HM. apply lookups_agree. rewrite find_setitem.
    by rewrite decide_False.
  - apply keys_setitem_contains.
Qed.

(** X4: [del h[N]] raises [KeyError] when no pair is stored under the name
    (compared without case); otherwise it removes every pair stored under
    it, after which the name is absent in any spelling, and it changes no
    lookup of any other name. *)
Theorem X4_delitem (h : HeadersDict.t) (N : string) :
  (HeadersDict.__contains__ h N = false ->
     HeadersDict.__delitem__ h N = Raise KeyError) /\
  (HeadersDict.__contains__ h N = true ->
     exists h',
       HeadersDict.__delitem__ h N = Return h' /\
       (forall N', Text.lower N' = Text.lower N ->
          HeadersDict.__contains__ h' N' = false /\
          HeadersDict.getlist h' N' = Return [] /\
          HeadersDict.__getitem__ h' N' = Raise KeyError) /\
       (forall M, Text.lower M ≠ Text.lower N ->
          HeadersDict.__contains__ h' M = HeadersDict.__contains__ h M /\
          HeadersDict.getlist h' M = HeadersDict.getlist h M /\
          HeadersDict.__getitem__ h' M = HeadersDict.__getitem__ h M /\
          forall d, HeadersDict.get h' M d = HeadersDict.get h M d)).
Proof.
  unfold HeadersDict.__delitem__, OrderedDict.__delitem__.
  change (OrderedDict.__contains__ h (Text.lower N))
    with (HeadersDict.__contains__ h N).
  split; intros ->; [done|]. eexists. split; [done|]. split.
  - intros N' Hcase.
    rewrite contains_find, getlist_stored, getitem_stored.
    unfold HeadersDict.stored. by rewrite Hcase, find_remove, decide_True.
  - intros M HM. apply lookups_agree. rewrite find_remove.
    by rewrite decide_False.
Qed.

(** ** [HeadersDict]: the invariant and what it gives *)

Section headers_wf_more.
Import Text.
Implicit Types (h : HeadersDict.t) (key : string).

(** In a well-formed [HeadersDict] an entry holds at least one pair. *)
Lemma wf_find_nonempty h k l :
  HeadersDict.wf h -> OrderedDict.find h k = Some l -> l ≠ [].
Proof.
  intros [_ Hall] Hl%find_elem. rewrite Forall_forall in Hall.
  by destruct (Hall _ Hl) as [? _].
Qed.

Lemma eq_values_spec (h1 h2 l1 l2 : HeadersDict.t) :
  l1.*1 = l2.*1 ->
  (forall k v, (k, v) ∈ l1 -> OrderedDict.find h1 k = Some v) ->
  (forall k v, (k, v) ∈ l2 -> OrderedDict.find h2 k = Some v) ->
  HeadersDict.eq_values h1 h2 (l1.*1) = Return (bool_decide (l1 = l2)).
Proof.
  revert l2. induction l1 as [|[k v1] l1 IH]; intros [|[k' v2] l2] Hkeys H1 H2;
    try done.
  rewrite !fmap_cons in Hkeys. injection Hkeys as Hk Hkeys. simpl in Hk. subst k'.
  rewrite fmap_cons. cbn [fst HeadersDict.eq_values].
  rewrite (getitem_found h1 k v1) by apply H1, list_elem_of_here.
  rewrite (getitem_found h2 k v2) by apply H2, list_elem_of_here.
  cbn [mbind outcome_bind].
  destruct (decide (v1 = v2)) as [->|Hne].
  - rewrite bool_decide_eq_true_2 by done.
    rewrite (IH l2 Hkeys)
      by (intros; first [apply H1 | apply H2]; by apply list_elem_of_further).
    f_equal. apply bool_decide_ext. split; [by intros ->|by intros [= ->]].
  - rewrite bool_decide_eq_false_2 by done.
    by rewrite bool_decide_eq_false_2 by (intros [= ? ?]; done).
Qed.

End headers_wf_more.

(** In a well-formed [HeadersDict] a lookup meets an entry with a first
    pair, or no entry at all. *)
Lemma lookup_of_wf (h : HeadersDict.t) (N d : string) :
  HeadersDict.wf h ->
  (HeadersDict.__contains__ h N = true ->
     exists v, HeadersDict.__getitem__ h N = Return v /\
               HeadersDict.get h N d = Return v /\
               HeadersDict.getlist h N ≠ Return []) /\
  (HeadersDict.__contains__ h N = false ->
     HeadersDict.__getitem__ h N = Raise KeyError /\
     HeadersDict.get h N d = Return d /\
     HeadersDict.getlist h N = Return []).
Proof.
  intros Hwf. rewrite contains_find, getitem_stored, get_stored, getlist_stored.
  unfold HeadersDict.stored.
  destruct (OrderedDict.find h (Text.lower N)) as [l|] eqn:Hl.
  - split; [intros _|done]. pose proof (wf_find_nonempty _ _ _ Hwf Hl).
    destruct l as [|[n v] l]; [done|]. by exists v.
  - split; [done|]. by intros _.
Qed.

(** X5: in a well-formed [HeadersDict], [h[N]] returns a value exactly when
    [N in h] and raises [KeyError] otherwise (never [IndexError]); [get]
    never raises: it returns that value, or the default when the name is
    absent. *)
Theorem X5_lookup_of_well_formed (h : HeadersDict.t) (N d : string) :
  HeadersDict.wf h ->
  (HeadersDict.__contains__ h N = true ->
     exists v, HeadersDict.__getitem__ h N = Return v /\
               HeadersDict.get h N d = Return v /\
               HeadersDict.getlist h N ≠ Return []) /\
  (HeadersDict.__contains__ h N = false ->
     HeadersDict.__getitem__ h N = Raise KeyError /\
     HeadersDict.get h N d = Return d /\
     HeadersDict.getlist h N = Return []).
Proof. apply lookup_of_wf. Qed.

Lemma X5_lookup_of_well_formed_witness :
  (HeadersDict.__contains__ [("host", [("Host", "a")])] "HOST" = true ->
     exists v, HeadersDict.__getitem__ [("host", [("Host", "a")])] "HOST" = Return v /\
               HeadersDict.get [("host", [("Host", "a")])] "HOST" "none" = Return v /\
               HeadersDict.getlist [("host", [("Host", "a")])] "HOST" ≠ Return []) /\
  (HeadersDict.__contains__ [("host", [("Host", "a")])] "HOST" = false ->
     HeadersDict.__getitem__ [("host", [("Host", "a")])] "HOST" = Raise KeyError /\
     HeadersDict.get [("host", [("Host", "a")])] "HOST" "none" = Return "none" /\
     HeadersDict.getlist [("host", [("Host", "a")])] "HOST" = Return []).
Proof.
  apply (X5_lookup_of_well_formed [("host", [("Host", "a")])] "HOST" "none").
  split; [apply (bool_decide_unpack _); vm_compute; exact I|].
  repeat constructor; simpl; done.
Defined.

(** X6: the methods of [HeadersDict] keep it well formed (one entry per
    lower-cased name, each holding at least one pair, every pair stored
    under the lower-cased form of its own name): the empty dict is well
    formed, the constructor builds a well-formed dict from any items, and
    insertion, [replace], [del] and [pop] map well-formed dicts to
    well-formed dicts. *)
Theorem X6_methods_keep_well_formed :
  HeadersDict.wf HeadersDict.empty /\
  (forall items h, HeadersDict.__init__ items = Return h -> HeadersDict.wf h) /\
  (forall h N v h', HeadersDict.wf h ->
     HeadersDict.__setitem__ h N v = Return h' -> HeadersDict.wf h') /\
  (forall h N v, HeadersDict.wf h -> HeadersDict.wf (HeadersDict.replace h N v)) /\
  (forall h N h', HeadersDict.wf h ->
     HeadersDict.__delitem__ h N = Return h' -> HeadersDict.wf h') /\
  (forall h N default popped h', HeadersDict.wf h ->
     HeadersDict.pop h N default = Return (popped, h') -> HeadersDict.wf h').
Proof.
  split; [apply wf_empty|]. split; [apply init_wf|].
  split; [intros h N v h'; apply wf_setitem|].
  split; [apply wf_replace|]. split; [intros h N h'; apply wf_delitem|].
  intros h N default popped h' Hwf.
  unfold HeadersDict.pop, OrderedDict.pop.
  destruct (OrderedDict.find h (Text.lower N)).
  - intros [= _ <-]. by apply wf_remove.
  - destruct default; [|done]. by intros [= _ <-].
Qed.

(** X7: on well-formed [HeadersDict]s, [==] is [True] exactly when both hold
    the same names in the same order with the same [(name, value)] pairs in
    the same order under each: the order of names and the original case of
    every name count. *)
Theorem X7_eq_compares_names_in_order (h1 h2 : HeadersDict.t) :
  HeadersDict.wf h1 -> HeadersDict.wf h2 ->
  HeadersDict.__eq__ h1 h2 = Return (bool_decide (h1 = h2)).
Proof.
  intros [Hnd1 _] [Hnd2 _]. unfold HeadersDict.__eq__, OrderedDict.keys.
  destruct (decide (h1.*1 = h2.*1)) as [Hkeys|Hkeys].
  - rewrite bool_decide_eq_true_2 by done.
    apply eq_values_spec; [done|intros; by apply find_of_elem..].
  - rewrite bool_decide_eq_false_2 by done.
    by rewrite bool_decide_eq_false_2 by (by intros ->).
Qed.

Lemma X7_eq_compares_names_in_order_witness :
  HeadersDict.__eq__ [("a", [("A", "1")]); ("b", [("B", "2")])]
                     [("b", [("B", "2")]); ("a", [("A", "1")])]
  = Return (bool_decide
              (([("a", [("A", "1")]); ("b", [("B", "2")])] : HeadersDict.t)
               = [("b", [("B", "2")]); ("a", [("A", "1")])])).
Proof.
  apply X7_eq_compares_names_in_order.
  - split; [apply (bool_decide_unpack _); vm_compute; exact I|]. repeat constructor; done.
  - split; [apply (bool_decide_unpack _); vm_compute; exact I|]. repeat constructor; done.
Defined.

(** X8: [pop] of a name under which nothing is stored returns the default
    it is given and leaves the [HeadersDict] as it was; without a default it
    raises [KeyError]. *)
Theorem X8_pop_of_absent_name (h : HeadersDict.t) (N : string)
    (d : list (string * string)) :
  HeadersDict.__contains__ h N = false ->
  HeadersDict.pop h N (Some d) = Return (d, h) /\
  HeadersDict.pop h N None = Raise KeyError.
Proof.
  rewrite contains_find. unfold HeadersDict.pop, OrderedDict.pop.
  by destruct (OrderedDict.find h (Text.lower N)).
Qed.

Lemma X8_pop_of_absent_name_witness :
  HeadersDict.pop [("host", [("Host", "a")])] "Via" (Some []) =
    Return ([], [("host", [("Host", "a")])]) /\
  HeadersDict.pop [("host", [("Host", "a")])] "Via" None = Raise KeyError.
Proof. apply X8_pop_of_absent_name. reflexivity. Defined.

(** X9: the constructor loses no item.  For every list of items whose
    names and values all pass the type check, the constructor returns, and
    for every text name [N], [getlist(N)] on the built [HeadersDict]
    returns the values of exactly the items whose name equals [N] without
    regard to case, in their order; [h[N]] returns the first of them and
    raises [KeyError] when there is none.  A list with an item whose name or
    value fails the check makes the constructor raise what the check raised
    at the first such item: [TypeError] for an [int]. *)
Theorem X9_constructor_keeps_every_value
    (decode : list Byte.byte -> outcome string)
    (items : list (HeadersDictAny.arg * HeadersDictAny.arg))
    (texts : list (string * string)) :
  Forall2 (fun a t => HeadersDictAny._checktype decode a.1 = Return t.1 /\
                      HeadersDictAny._checktype decode a.2 = Return t.2) items texts ->
  (exists h,
     HeadersDictAny.__init__ decode items = Return h /\
     forall N,
       HeadersDictAny.getlist h (HeadersDictAny.Str N) =
         Return ((HeadersDict.under (Text.lower N) texts).*2) /\
       HeadersDictAny.__getitem__ decode h (HeadersDictAny.Str N) =
         match HeadersDict.under (Text.lower N) texts with
         | [] => Raise KeyError
         | (_, v) :: _ => Return v
         end) /\
  (forall k v e rest,
     HeadersDictAny._checktype decode k = Raise e \/
     (exists key, HeadersDictAny._checktype decode k = Return key /\
                  HeadersDictAny._checktype decode v = Raise e) ->
     HeadersDictAny.__init__ decode (items ++ (k, v) :: rest) = Raise e) /\
  (forall n v rest,
     HeadersDictAny.__init__ decode (items ++ (HeadersDictAny.Int n, v) :: rest)
     = Raise TypeError) /\
  (forall key n rest,
     HeadersDictAny.__init__ decode
       (items ++ (HeadersDictAny.Str key, HeadersDictAny.Int n) :: rest)
     = Raise TypeError).
Proof.
  intros Hall. split; [|split; [|split]].
  - destruct (init_spec texts) as (h & Hh & _ & Hfind). exists h.
    pose proof (init_wf _ _ Hh) as Hwf.
    split.
    { unfold HeadersDictAny.__init__.
      by rewrite (for_each_checked decode items texts _ Hall). }
    intros N. rewrite getlist_Str.
    rewrite (getitem_checked decode h (HeadersDictAny.Str N) N) by done.
    rewrite getlist_stored, getitem_stored. unfold HeadersDict.stored.
    specialize (Hfind (Text.lower N)).
    destruct (OrderedDict.find h (Text.lower N)) as [l|] eqn:Hl; simpl in Hfind.
    + pose proof (wf_find_nonempty _ _ _ Hwf Hl). subst l. split; [done|].
      by destruct (HeadersDict.under (Text.lower N) texts) as [|[? ?] ?].
    + by rewrite <-Hfind.
  - intros k v e rest Hbad.
    by apply (for_each_unchecked decode items rest texts).
  - intros n v rest.
    apply (for_each_unchecked decode items rest texts); [done|]. by left.
  - intros key n rest.
    apply (for_each_unchecked decode items rest texts); [done|].
    right. by exists key.
Qed.

Lemma X9_constructor_keeps_every_value_witness :
  (exists h,
     HeadersDictAny.__init__ HeadersDictAny.decode_utf8
       [(HeadersDictAny.Str "Via", HeadersDictAny.Str "p1");
        (HeadersDictAny.Bytes (Text.encode_utf8 "VIA"), HeadersDictAny.Str "p2")]
       = Return h /\
     forall N,
       HeadersDictAny.getlist h (HeadersDictAny.Str N) =
         Return ((HeadersDict.under (Text.lower N) [("Via", "p1"); ("VIA", "p2")]).*2) /\
       HeadersDictAny.__getitem__ HeadersDictAny.decode_utf8 h (HeadersDictAny.Str N) =
         match HeadersDict.under (Text.lower N) [("Via", "p1"); ("VIA", "p2")] with
         | [] => Raise KeyError
         | (_, v) :: _ => Return v
         end) /\
  HeadersDictAny.__init__ HeadersDictAny.decode_utf8
    ([(HeadersDictAny.Str "Via", HeadersDictAny.Str "p1");
      (HeadersDictAny.Bytes (Text.encode_utf8 "VIA"), HeadersDictAny.Str "p2")]
     ++ (HeadersDictAny.Str "A", HeadersDictAny.Int 1) :: [])
  = Raise TypeError.
Proof.
  assert (Forall2
            (fun a t =>
               HeadersDictAny._checktype HeadersDictAny.decode_utf8 a.1 = Return t.1 /\
               HeadersDictAny._checktype HeadersDictAny.decode_utf8 a.2 = Return t.2)
            [(HeadersDictAny.Str "Via", HeadersDictAny.Str "p1");
             (HeadersDictAny.Bytes (Text.encode_utf8 "VIA"), HeadersDictAny.Str "p2")]
            [("Via", "p1"); ("VIA", "p2")]) as Hall.
  { repeat constructor. }
  split.
  - exact (proj1 (X9_constructor_keeps_every_value _ _ _ Hall)).
  - exact (proj2 (proj2 (proj2 (X9_constructor_keeps_every_value _ _ _ Hall)))
             "A" 1%Z []).
Defined.

(** ** The hook table, continued *)

(** X10: registering a hook under one name leaves the hook looked up under
    any other name as it was; names are compared exactly, so [is_tag] and
    [IS_TAG] are different hooks. *)
Theorem X10_register_leaves_other_hooks (self : Hooks.t) (name name' : string)
    (default : pyval) (override : bool) (func : callable) :
  name' ≠ name ->
  Hooks.__getitem__ (Hooks.register name default override func self) name' =
    Hooks.__getitem__ self name' /\
  Hooks.fallback (Hooks.register name default override func self) name' =
    Hooks.fallback self name'.
Proof.
  intros Hne. unfold Hooks.__getitem__, Hooks.fallback, Hooks.register, Hooks.__call__.
  by rewrite lookup_insert_ne.
Qed.

Lemma X10_register_leaves_other_hooks_witness :
  Hooks.__getitem__
    (Hooks.register "is_tag" (PyStr "d") false (Examples.tag_hook "t") ∅) "IS_TAG" =
    Hooks.__getitem__ ∅ "IS_TAG" /\
  Hooks.fallback
    (Hooks.register "is_tag" (PyStr "d") false (Examples.tag_hook "t") ∅) "IS_TAG" =
    Hooks.fallback ∅ "IS_TAG".
Proof. apply X10_register_leaves_other_hooks. discriminate. Defined.

(** X11: after a name has been registered for the first time with fallback
    [d1] and then registered again without [override], the looked-up hook
    runs the new function and falls back to the first fallback: it returns
    what the new function returns, and [d1] when the new function raises an
    exception derived from [Exception]. *)
Theorem X11_new_function_first_fallback (self : Hooks.t) (name : string)
    (d1 d2 : pyval) (override1 : bool) (f1 f2 : callable) :
  self !! name = None ->
  Hooks.__getitem__
    (Hooks.register name d2 false f2 (Hooks.register name d1 override1 f1 self))
    name
  = Hooks.safe_callable f2 d1.
Proof.
  intros Hfresh. unfold Hooks.__getitem__, Hooks.register, Hooks.__call__.
  by rewrite !lookup_insert_eq, Hfresh.
Qed.

Lemma X11_new_function_first_fallback_witness :
  Hooks.__getitem__
    (Hooks.register "is_tag" (PyStr "second") false Examples.failing_hook
       (Hooks.register "is_tag" (PyStr "first") false (Examples.tag_hook "t") ∅))
    "is_tag"
  = Hooks.safe_callable Examples.failing_hook (PyStr "first").
Proof. apply X11_new_function_first_fallback. apply lookup_empty. Defined.

(** X12: the fallback is chosen when [hooks(name, default)] is called, not
    when the decorator it returns is applied.  A decorator made while the
    name was unregistered and applied after another registration under the
    name stores its own default, although it did not ask to override, and
    the earlier fallback is lost. *)
Theorem X12_decorator_made_before_registration (self : Hooks.t) (name : string)
    (d d1 : pyval) (override1 : bool) (f f1 : callable) :
  self !! name = None ->
  Hooks.fallback
    (Hooks.__call__ self name d false f
       (Hooks.register name d1 override1 f1 self))
    name
  = Some d.
Proof.
  intros Hfresh. unfold Hooks.fallback, Hooks.__call__.
  by rewrite lookup_insert_eq, Hfresh.
Qed.

Lemma X12_decorator_made_before_registration_witness :
  Hooks.fallback
    (Hooks.__call__ ∅ "is_tag" (PyStr "late") false Examples.failing_hook
       (Hooks.register "is_tag" (PyStr "first") false (Examples.tag_hook "t") ∅))
    "is_tag"
  = Some (PyStr "late").
Proof. apply X12_decorator_made_before_registration. apply lookup_empty. Defined.

(** ** The server handle, continued *)

(** X13: [stop] on a module whose handle is [None] (no [run] yet) raises
    [AssertionError]; when the handle refers to a server it returns, closes
    that server and changes no module-level name. *)
Theorem X13_stop_needs_a_server (st : server.state) :
  (server.handle st = Some server.VNone -> server.stop st = Raise AssertionError) /\
  (forall id, server.handle st = Some (server.VServer id) ->
     server.stop st =
       Return (server.mkState (server.globals st) (<[id := true]> (server.closed st)))).
Proof.
  split.
  - unfold server.handle, server.stop, server.load_global. simpl. by intros ->.
  - intros id. apply stop_leaves_globals.
Qed.

(** X14: because [stop] leaves the handle in place, it can be called again:
    from a module state whose handle refers to a server, any number of
    [stop] calls in a row return, none raises [AssertionError], and the
    handle and every other module-level name are as they were before. *)
Theorem X14_stop_can_be_repeated (st : server.state) (id n : nat) :
  server.handle st = Some (server.VServer id) ->
  exists st',
    server.stop_times n st = Return st' /\
    server.globals st' = server.globals st /\
    server.handle st' = Some (server.VServer id) /\
    (0 < n -> server.closed st' !! id = Some true).
Proof.
  revert st. induction n as [|n IH]; intros st Hst.
  - exists st. repeat split; [done|lia].
  - cbn [server.stop_times]. rewrite (stop_leaves_globals st id Hst).
    cbn [mbind outcome_bind].
    destruct (IH (server.mkState (server.globals st) (<[id:=true]> (server.closed st))))
      as (st' & Hrun & Hglobals & Hhandle & Hclosed); [done|].
    exists st'. split; [done|]. split; [done|]. split; [done|]. intros _.
    destruct n as [|n]; [|apply Hclosed; lia].
    injection Hrun as <-. apply lookup_insert_eq.
Qed.

Lemma X14_stop_can_be_repeated_witness :
  exists st',
    server.stop_times 3
      (server.mkState {[ "_server" := server.VServer 7 ]} {[ 7 := false ]})
      = Return st' /\
    server.globals st' =
      server.globals
        (server.mkState {[ "_server" := server.VServer 7 ]} {[ 7 := false ]}) /\
    server.handle st' = Some (server.VServer 7) /\
    (0 < 3 -> server.closed st' !! 7 = Some true).
Proof.
  apply (X14_stop_can_be_repeated
           (server.mkState {[ "_server" := server.VServer 7 ]} {[ 7 := false ]}) 7 3).
  reflexivity.
Defined.

(** X19: [run] reads the name [asyncio] as a global before it creates or
    binds anything.  In a module where that name is unbound, as in
    [server.py] as written (it has no import of [asyncio]), [run] raises:
    whatever the steps before raised, or else [NameError]; it never returns
    a state, so it never binds the handle, and a later [stop] on the
    untouched initial module raises [AssertionError].  Where the name is
    bound to the module, [run] binds the handle to the created server and
    leaves it open. *)
Theorem X19_run_needs_asyncio (prelude : outcome ()) (create : outcome nat) :
  (forall st, server.globals st !! "asyncio" = None ->
     (forall st', server.run prelude create st ≠ Return st') /\
     (prelude = Return () -> server.run prelude create st = Raise NameError)) /\
  server.run prelude create server.initial ≠
    Return (server.mkState {[ "_server" := server.VNone ]} ∅) /\
  server.stop server.initial = Raise AssertionError /\
  (forall st id, server.globals st !! "asyncio" = Some server.VAsyncio ->
     server.run (Return ()) (Return id) st =
       Return (server.mkState (<[ "_server" := server.VServer id ]> (server.globals st))
                              (<[ id := false ]> (server.closed st)))).
Proof.
  split; [|split; [|split]].
  - intros st Hnone. rewrite (run_without_asyncio prelude create st Hnone).
    split; [by destruct prelude|]. by intros ->.
  - rewrite (run_without_asyncio prelude create server.initial); [|done].
    by destruct prelude.
  - done.
  - intros st id Hmod. unfold server.run, server.load_global. simpl.
    by rewrite Hmod.
Qed.

(** ** [StatusLine] and [ICAPResponse] *)

(** X15: constructing a [StatusLine] without a reason for a code that the
    table selected by the version does not hold raises [KeyError], even if
    the other table holds the code; with exactly one extra argument that
    argument is the reason and no table is read; with more than one the
    construction raises [ValueError]. *)
Theorem X15_status_line_edges (I : StatusLine.imports) (version : string)
    (code : StatusLine.code_arg) (n : Z) :
  StatusLine.int I code = Return n ->
  ((if Text.startswith version "HTTP"
    then StatusLine.http_response_codes I
    else StatusLine.icap_response_codes I) !! n = None ->
   StatusLine.__new__ I version code [] = Raise KeyError) /\
  (forall reason,
     StatusLine.__new__ I version code [reason] =
       Return (StatusLine.mk version n reason)) /\
  (forall r1 r2 rest,
     StatusLine.__new__ I version code (r1 :: r2 :: rest) = Raise ValueError).
Proof.
  intros Hint. unfold StatusLine.__new__. rewrite Hint. simpl.
  split; [|done]. intros Hnone. unfold StatusLine.table_getitem.
  destruct (Text.startswith version "HTTP"); by rewrite Hnone.
Qed.

Lemma X15_status_line_edges_witness :
  StatusLine.__new__ Examples.documented_imports "ICAP/1.0" (StatusLine.CodeStr "204") []
  = Raise KeyError.
Proof.
  refine (proj1 (X15_status_line_edges Examples.documented_imports "ICAP/1.0"
                   (StatusLine.CodeStr "204") 204 _) _); reflexivity.
Defined.

(** X16: [ICAPResponse.from_error] builds, for a status code or for an
    error object carrying that code, the response that
    [ICAPResponse(StatusLine('ICAP/1.0', code))] is: the reason comes from
    the ICAP table, the headers are empty, and a code the ICAP table does
    not hold raises [KeyError]. *)
Theorem X16_from_error (I : StatusLine.imports) (n : Z) :
  ICAPResponse.from_error I (ICAPResponse.ErrorObject n) =
    ICAPResponse.from_error I (ICAPResponse.ErrorCode n) /\
  ICAPResponse.from_error I (ICAPResponse.ErrorCode n) =
    (status ← StatusLine.__new__ I "ICAP/1.0" (StatusLine.CodeInt n) [];
     Return (ICAPResponse.__init__ (Some status) None)) /\
  ICAPResponse.from_error I (ICAPResponse.ErrorCode n) =
    match StatusLine.icap_response_codes I !! n with
    | Some reason =>
        Return (ICAPResponse.mk (StatusLine.mk "ICAP/1.0" n reason) HeadersDict.empty)
    | None => Raise KeyError
    end.
Proof.
  unfold ICAPResponse.from_error, StatusLine.__new__, StatusLine.table_getitem.
  simpl. by destruct (StatusLine.icap_response_codes I !! n).
Qed.

(** X17: an [ICAPResponse] with well-formed headers serializes to its
    status line ([version], the code in decimal, the reason, separated by
    single spaces), a [\r\n], and one [Name: Value\r\n] line per stored
    header pair; nothing follows the last header line, and with no headers
    the result is the status line and one [\r\n]. *)
Theorem X17_response_bytes (r : ICAPResponse.t) :
  HeadersDict.wf (ICAPResponse.headers r) ->
  ICAPResponse.__bytes__ r =
    Return (Text.encode_utf8
              (StatusLine.version (ICAPResponse.status_line r) +:+ " " +:+
               Text.str_of_int (StatusLine.code (ICAPResponse.status_line r)) +:+ " " +:+
               StatusLine.reason (ICAPResponse.status_line r))
            ++ Text.encode_utf8 Text.CRLF
            ++ HeadersDict.block (HeadersDict.pairs (ICAPResponse.headers r))).
Proof.
  intros Hwf. unfold ICAPResponse.__bytes__. by rewrite bytes_of_wf.
Qed.

Lemma X17_response_bytes_witness :
  ICAPResponse.__bytes__ (ICAPResponse.__init__ None None) =
    Return (Text.encode_utf8 ("ICAP/1.0 200 OK" +:+ Text.CRLF)).
Proof.
  refine (eq_trans (X17_response_bytes (ICAPResponse.__init__ None None) wf_empty) _).
  reflexivity.
Defined.

(** ** [ICAPMessage.has_body] *)

(** X18: for a message with well-formed headers, [has_body] is decided by
    the first [Encapsulated] value when that header is present: it is
    [False] exactly when the text [null-body] occurs in it.  Without the
    header an OPTIONS request has no body, and for every other request and
    for every response [has_body] raises [KeyError]. *)
Theorem X18_has_body (m : ICAPMessage.t) :
  HeadersDict.wf (ICAPMessage.headers m) ->
  (forall enc,
     HeadersDict.__getitem__ (ICAPMessage.headers m) "encapsulated" = Return enc ->
     ICAPMessage.has_body m = Return (negb (Text.str_in "null-body" enc))) /\
  (HeadersDict.__contains__ (ICAPMessage.headers m) "encapsulated" = false ->
     (ICAPMessage.is_options m = Return true ->
        ICAPMessage.has_body m = Return false) /\
     (ICAPMessage.is_options m ≠ Return true ->
        ICAPMessage.has_body m = Raise KeyError)).
Proof.
  intros Hwf.
  destruct (lookup_of_wf (ICAPMessage.headers m) "encapsulated" "" Hwf)
    as [Hin Hout].
  unfold ICAPMessage.has_body, ICAPMessage.is_options, ICAPMessage.method_is.
  destruct m as [rl h|sl h];
    cbn -[HeadersDict.__getitem__ HeadersDict.__contains__ Text.str_in] in *;
    destruct (HeadersDict.__contains__ h "encapsulated") eqn:Hc.
  - destruct Hin as (v & Hv & _); [done|]. rewrite andb_false_r, Hv.
    split; [by intros enc [= <-]|done].
  - destruct Hout as (Hv & _); [done|]. rewrite andb_true_r, Hv.
    split; [done|]. intros _. case_bool_decide as Hm.
    + split; [done|]. by intros [].
    + split; [by intros [= ?]|done].
  - destruct Hin as (v & Hv & _); [done|]. rewrite Hv.
    split; [by intros enc [= <-]|done].
  - destruct Hout as (Hv & _); [done|]. rewrite Hv. by repeat split.
Qed.

Lemma X18_has_body_witness :
  ICAPMessage.has_body
    (ICAPMessage.Request
       (RequestLine.mk "REQMOD" (mkParseResult "" "" "/" "" [] "") "ICAP/1.0")
       [("encapsulated", [("Encapsulated", "req-hdr=0, null-body=170")])])
  = Return false.
Proof.
  refine (proj1 (X18_has_body
                   (ICAPMessage.Request
                      (RequestLine.mk "REQMOD" (mkParseResult "" "" "/" "" [] "") "ICAP/1.0")
                      [("encapsulated", [("Encapsulated", "req-hdr=0, null-body=170")])])
                   _) "req-hdr=0, null-body=170" eq_refl).
  split; [apply (bool_decide_unpack _); vm_compute; exact I|].
  repeat constructor; done.
Defined.
